(** * Ai-Chat-Engine: the question-answering pipeline of [app.py]

    A shallow embedding of the Streamlit application [src/app.py]: the
    two prompt templates, the synthesis chain [get_sql_chain], the answer
    pipeline [get_response] with its first-sentence truncation, the
    connection helper [init_database] and the two button handlers
    (Connect, Send) acting on [st.session_state].

    Python [str] values are modelled as [string] (the UTF-8 bytes of the
    text; the only character the program inspects is the ASCII period,
    whose byte never occurs inside a multi-byte sequence).  The hosted
    model, the database and the UI toolkit are external: they are
    modelled by an environment of oracles that may answer or raise, and
    every call made to them is recorded in a trace. *)

From Stdlib Require Import String Ascii List Bool Arith Lia.
Import ListNotations.
Local Open Scope string_scope.
Local Open Scope list_scope.

(** ** Exceptions and results *)

Record exception : Type := Exception { exc_type : string; exc_msg : string }.

Inductive result (A : Type) : Type :=
| Ok (a : A)
| Raised (e : exception).

Arguments Ok {A} a.
Arguments Raised {A} e.

Definition IndexError : exception :=
  Exception "IndexError" "list index out of range".

Definition KeyError (key : string) : exception :=
  Exception "KeyError" key.

Definition ValueError (msg : string) : exception :=
  Exception "ValueError" msg.

Definition TypeError (msg : string) : exception :=
  Exception "TypeError" msg.

Definition AttributeError (msg : string) : exception :=
  Exception "AttributeError" msg.

(** ** Strings: the fragment of [str] the program uses *)

Definition period : ascii := "."%char.

(** [s.split(sep)] for a one-character separator: never empty, one more
    segment than there are separators. *)
Fixpoint split (sep : ascii) (s : string) : list string :=
  match s with
  | EmptyString => [EmptyString]
  | String c s' =>
      if Ascii.eqb c sep then EmptyString :: split sep s'
      else match split sep s' with
           | [] => [String c EmptyString]
           | seg :: segs => String c seg :: segs
           end
  end.

(** [l[i]] for a non-negative index. *)
Definition getitem {A : Type} (l : list A) (i : nat) : result A :=
  match nth_error l i with
  | Some x => Ok x
  | None => Raised IndexError
  end.

(** [c in s] for a character. *)
Fixpoint contains (c : ascii) (s : string) : bool :=
  match s with
  | EmptyString => false
  | String c' s' => Ascii.eqb c' c || contains c s'
  end.

(** [s.count(c)] for a character. *)
Fixpoint count (c : ascii) (s : string) : nat :=
  match s with
  | EmptyString => 0
  | String c' s' => (if Ascii.eqb c' c then 1 else 0) + count c s'
  end.

(** The last character of a string, if any ([s[-1]]). *)
Fixpoint last_char (s : string) : option ascii :=
  match s with
  | EmptyString => None
  | String c EmptyString => Some c
  | String _ s' => last_char s'
  end.

(** Line 165: [raw_response.split(".")[0] + "."]. *)
Definition clean_response (raw_response : string) : result string :=
  match getitem (split period raw_response) 0 with
  | Ok first => Ok (first ++ ".")%string
  | Raised e => Raised e
  end.

(** ** Messages, values and keyword dictionaries *)

(** [langchain_core.messages]: the two message classes the program uses. *)
Inductive message : Type :=
| AIMessage (content : string)
| HumanMessage (content : string).

Definition content (m : message) : string :=
  match m with
  | AIMessage c => c
  | HumanMessage c => c
  end.

(** The values the chains pass around: text, or the conversation
    history (a list of messages). *)
Inductive value : Type :=
| VStr (s : string)
| VList (l : list message).

(** A Python [dict] with string keys, in insertion order. *)
Definition dict : Type := list (string * value).

Fixpoint dict_get (d : dict) (key : string) : option value :=
  match d with
  | [] => None
  | (k, v) :: d' => if String.eqb k key then Some v else dict_get d' key
  end.

(** [{**d, key: v}]: an existing key keeps its place, a new one goes
    last. *)
Fixpoint dict_set (key : string) (v : value) (d : dict) : dict :=
  match d with
  | [] => [(key, v)]
  | (k, v') :: d' =>
      if String.eqb k key then (k, v) :: d' else (k, v') :: dict_set key v d'
  end.

(** [d[key]]. *)
Definition dict_item (d : dict) (key : string) : result value :=
  match dict_get d key with
  | Some v => Ok v
  | None => Raised (KeyError key)
  end.

Fixpoint join (sep : string) (l : list string) : string :=
  match l with
  | [] => EmptyString
  | [s] => s
  | s :: l' => (s ++ sep ++ join sep l')%string
  end.

(** [str(v)] as the template formatter applies it; [repr_message] is the
    message classes' [__repr__], which belongs to the library. *)
Definition str_value (repr_message : message -> string) (v : value) : string :=
  match v with
  | VStr s => s
  | VList l => ("[" ++ join ", " (map repr_message l) ++ "]")%string
  end.

(** ** Prompt templates

    [ChatPromptTemplate.from_template] reads the template as a format
    string: text, with replacement fields written [{name}].  Doubled
    braces (the escape for a literal brace) occur in neither template
    and are not modelled. *)

Inductive piece : Type :=
| Lit (text : string)
| Field (name : string).

Definition cons_lit (c : ascii) (ps : list piece) : list piece :=
  match ps with
  | Lit text :: ps' => Lit (String c text) :: ps'
  | _ => Lit (String c EmptyString) :: ps
  end.

(** [field] is [None] in literal text and [Some name] inside a
    replacement field whose name read so far is [name]. *)
Fixpoint parse_template (s : string) (field : option string)
  : result (list piece) :=
  match s, field with
  | EmptyString, None => Ok []
  | EmptyString, Some _ =>
      Raised (ValueError "expected '}' before end of string")
  | String c s', None =>
      if Ascii.eqb c "{"%char then parse_template s' (Some EmptyString)
      else if Ascii.eqb c "}"%char then
        Raised (ValueError "Single '}' encountered in format string")
      else match parse_template s' None with
           | Ok ps => Ok (cons_lit c ps)
           | Raised e => Raised e
           end
  | String c s', Some name =>
      if Ascii.eqb c "}"%char then
        match parse_template s' None with
        | Ok ps => Ok (Field name :: ps)
        | Raised e => Raised e
        end
      else parse_template s' (Some (name ++ String c EmptyString)%string)
  end.

Fixpoint render (repr_message : message -> string) (ps : list piece)
  (vars : dict) : result string :=
  match ps with
  | [] => Ok EmptyString
  | Lit text :: ps' =>
      match render repr_message ps' vars with
      | Ok s => Ok (text ++ s)%string
      | Raised e => Raised e
      end
  | Field name :: ps' =>
      match dict_item vars name with
      | Ok v =>
          match render repr_message ps' vars with
          | Ok s => Ok (str_value repr_message v ++ s)%string
          | Raised e => Raised e
          end
      | Raised e => Raised e
      end
  end.

(** [prompt.invoke(vars)]: the text of the single message the prompt
    produces.  Keys of [vars] the template does not name are ignored. *)
Definition format (repr_message : message -> string) (template : string)
  (vars : dict) : result string :=
  match parse_template template None with
  | Ok ps => render repr_message ps vars
  | Raised e => Raised e
  end.

(** *** The synthesis template (lines 21-115), cut at its two
    [{question}] fields *)

Definition sql_head : string :=
"
        Database Name: employee_db
        Tables:
        employee_data:
        EmpID
        First Name
        Last Name
        Start Date
        Exit Date
        Title
        Supervisor
        Email
        Business Unit
        Employee Status
        Employee Type
        Pay Zone
        Employee Classification Type
        Termination Type
        Termination Description
        Department Type
        Division Description
        DOB (Date of Birth)
        State
        Job Function
        Gender
        Location
        Race (or) Ethnicity
        Marital Status
        Performance Score
        Current Employee Rating

        employee_engagement_survey_data:
        Employee ID
        Survey Date
        Engagement Score
        Satisfaction Score
        Work-Life Balance Score

        recruitment_data:
        Applicant ID
        Application Date
        First Name
        Last Name
        Gender
        Date of Birth
        Phone Number
        Email
        Address
        City
        State
        Zip Code
        Country
        Education Level
        Years of Experience
        Desired Salary
        Job Title
        Status

        training_and_development_data:
        Employee ID
        Training Date
        Training Program Name
        Training Type
        Training Outcome
        Location
        Trainer
        Training Duration (Days)
        Training Cost

        User's Question: ".

Definition sql_middle : string :=
"

        Instructions:
        Write a SQL query based on the user's question.
        Use the tables and fields mentioned above.
        Ensure that column names with spaces are enclosed in backticks (`).
        Provide only the SQL query and nothing else.
        Do not include additional text or formatting.

        Examples:
        Question: What is the average engagement score?
        SQL Query: SELECT AVG(`Engagement Score`) AS avg_engagement_score FROM employee_engagement_survey_data;

        Question: How has the average engagement score changed over time?
        SQL Query: SELECT `Survey Date`, AVG(`Engagement Score`) AS avg_engagement_score FROM employee_engagement_survey_data GROUP BY `Survey Date` ORDER BY `Survey Date`;

        Question: Show the engagement scores for all employees surveyed in the last quarter.
        SQL Query: SELECT `Employee ID`, `Engagement Score` FROM employee_engagement_survey_data WHERE `Survey Date` >= DATE('now', '-3 month');

        Question: What is the range of work-life balance scores?
        SQL Query: SELECT MIN(`Work-Life Balance Score`) AS min_score, MAX(`Work-Life Balance Score`) AS max_score FROM employee_engagement_survey_data;

        Your Turn:
        Question: ".

Definition sql_tail : string :=
"
        SQL Query:
    ".

Definition get_sql_chain_template : string :=
  (sql_head ++ "{question}" ++ sql_middle ++ "{question}" ++ sql_tail)%string.

(** *** The answer template (lines 134-143), cut at its five fields *)

Definition answer_head : string :=
"
        You are a data analyst at a company. You are interacting with a user who is asking you questions about the company's database.
        Based on the table schema below, question, sql query, and sql response, write a natural language response.
        <SCHEMA>".

Definition answer_after_schema : string :=
"</SCHEMA>
    
        Conversation History: ".

Definition answer_after_history : string :=
"
        SQL Query: <SQL>".

Definition answer_after_query : string :=
"</SQL>
        User question: ".

Definition answer_after_question : string :=
"
        SQL Response: ".

Definition answer_tail : string :=
"
    ".

Definition get_response_template : string :=
  (answer_head ++ "{schema}" ++ answer_after_schema ++ "{chat_history}"
   ++ answer_after_history ++ "{query}" ++ answer_after_query ++ "{question}"
   ++ answer_after_question ++ "{response}" ++ answer_tail)%string.

(** ** [urllib.parse.quote] with its default [safe="/"] *)

Definition always_safe (c : ascii) : bool :=
  let n := nat_of_ascii c in
  ((65 <=? n)%nat && (n <=? 90)%nat) || ((97 <=? n)%nat && (n <=? 122)%nat)
  || ((48 <=? n)%nat && (n <=? 57)%nat) || contains c "_.-~".

Definition hex_digit (n : nat) : ascii :=
  if (n <? 10)%nat then ascii_of_nat (48 + n) else ascii_of_nat (55 + n).

Definition quote_char (c : ascii) : string :=
  if always_safe c || Ascii.eqb c "/"%char then String c EmptyString
  else
    let n := nat_of_ascii c in
    String "%"%char
      (String (hex_digit (n / 16)) (String (hex_digit (n mod 16)) EmptyString)).

Fixpoint quote (s : string) : string :=
  match s with
  | EmptyString => EmptyString
  | String c s' => (quote_char c ++ quote s')%string
  end.

(** ** The external world

    A database handle is an opaque reference.  Every call that leaves
    the program is an [event], recorded with its outcome; the oracles of
    the environment see the events so far, so they may be stateful and
    need not answer the same call the same way twice. *)

Inductive SQLDatabase : Type := Handle (id : nat).

Inductive event : Type :=
| EvFromUri (uri : string) (r : result SQLDatabase)
| EvTableInfo (db : SQLDatabase) (r : result string)
| EvRun (db : SQLDatabase) (command : string) (r : result string)
| EvLLM (prompt : string) (r : result string)
| EvStError (msg : string)
| EvStSuccess (msg : string).

Record Env : Type := {
  (** [repr] of a message object *)
  repr_message : message -> string;
  (** [SQLDatabase.from_uri(uri)] *)
  from_uri : list event -> string -> result SQLDatabase;
  (** [db.get_table_info()] *)
  get_table_info : list event -> SQLDatabase -> result string;
  (** [db.run(command)] *)
  run : list event -> SQLDatabase -> string -> result string;
  (** [llm | StrOutputParser()] on the text of the prompt *)
  llm : list event -> string -> result string;
  (** The thread pool of a parallel map over two steps: whether the
      step written second makes its call before the one written first *)
  schedule : list event -> bool
}.

(** The exception an external call raised, if it did. *)
Definition raised_by (ev : event) : option exception :=
  match ev with
  | EvFromUri _ (Raised e) | EvTableInfo _ (Raised e)
  | EvRun _ _ (Raised e) | EvLLM _ (Raised e) => Some e
  | _ => None
  end.

(** The prompts sent to the model, in order. *)
Fixpoint llm_prompts (evs : list event) : list string :=
  match evs with
  | [] => []
  | EvLLM prompt _ :: evs' => prompt :: llm_prompts evs'
  | _ :: evs' => llm_prompts evs'
  end.

(** ** Session state and the program monad *)

(** [st.session_state] once the top of the script has run: the history
    and the theme are always set, the database only after a successful
    Connect. *)
Record session_state : Type := {
  chat_history : list message;
  db : option SQLDatabase;
  theme : string
}.

Record world : Type := {
  session : session_state;
  trace : list event
}.

(** A statement: from a world to a value or an exception, and the world
    after it. *)
Definition M (A : Type) : Type := world -> result A * world.

Definition ret {A : Type} (a : A) : M A := fun w => (Ok a, w).

Definition raise {A : Type} (e : exception) : M A := fun w => (Raised e, w).

Definition lift {A : Type} (r : result A) : M A := fun w => (r, w).

Definition bind {A B : Type} (m : M A) (k : A -> M B) : M B :=
  fun w =>
    match m w with
    | (Ok a, w') => k a w'
    | (Raised e, w') => (Raised e, w')
    end.

(** [try: m / except Exception as e: handler e]. *)
Definition try_except {A : Type} (m : M A) (handler : exception -> M A) : M A :=
  fun w =>
    match m w with
    | (Ok a, w') => (Ok a, w')
    | (Raised e, w') => handler e w'
    end.

Notation "x <- m ;; k" := (bind m (fun x => k))
  (at level 61, m at next level, right associativity).
Notation "m ;;; k" := (bind m (fun _ => k))
  (at level 61, right associativity).

Definition log (ev : event) (w : world) : world :=
  {| session := session w; trace := trace w ++ [ev] |}.

Definition call {A : Type} (oracle : list event -> result A)
  (record : result A -> event) : M A :=
  fun w => let r := oracle (trace w) in (r, log (record r) w).

Definition with_session (f : session_state -> session_state) : M unit :=
  fun w => (Ok tt, {| session := f (session w); trace := trace w |}).

Definition set_chat_history (h : list message) (s : session_state)
  : session_state :=
  {| chat_history := h; db := db s; theme := theme s |}.

Definition set_db (d : SQLDatabase) (s : session_state) : session_state :=
  {| chat_history := chat_history s; db := Some d; theme := theme s |}.

Definition set_theme (t : string) (s : session_state) : session_state :=
  {| chat_history := chat_history s; db := db s; theme := t |}.

(** [st.session_state.chat_history.append(m)]: the list object is
    mutated in place; whoever reads the attribute afterwards sees the
    longer list. *)
Definition chat_history_append (m : message) : M unit :=
  with_session (fun s => set_chat_history (chat_history s ++ [m]) s).

(** [st.session_state.db]: an attribute that may not have been set. *)
Definition session_db : M SQLDatabase :=
  fun w =>
    match db (session w) with
    | Some d => (Ok d, w)
    | None =>
        (Raised (AttributeError "st.session_state has no attribute db"), w)
    end.

Definition session_chat_history : M (list message) :=
  fun w => (Ok (chat_history (session w)), w).

Definition st_error (msg : string) : M unit :=
  fun w => (Ok tt, log (EvStError msg) w).

Definition st_success (msg : string) : M unit :=
  fun w => (Ok tt, log (EvStSuccess msg) w).

(** Lines 169-172 and 187-188: the session a first page load creates. *)
Definition initial_session : session_state :=
  {| chat_history :=
       [AIMessage
          "Hello! I'm a SQL assistant. Ask me anything about your database."];
     db := None;
     theme := "light" |}.

Definition as_str (v : value) : result string :=
  match v with
  | VStr s => Ok s
  | VList _ => Raised (TypeError "expected str")
  end.

(** The outcome of a parallel map over two steps: the results are
    collected in the order the steps are written, so the exception of
    the first one written is the one raised when both raise. *)
Definition both {A B : Type} (ra : result A) (rb : result B) : result (A * B) :=
  match ra with
  | Raised e => Raised e
  | Ok a =>
      match rb with
      | Raised e => Raised e
      | Ok b => Ok (a, b)
      end
  end.

(** [RunnableParallel] over two steps: both are started and both run to
    their end, whatever the other does; which one makes its call first
    is the thread pool's choice, [second_first]. *)
Definition parallel {A B : Type} (second_first : bool) (first : M A)
  (second : M B) : M (A * B) :=
  fun w =>
    if second_first then
      let (rb, w1) := second w in
      let (ra, w2) := first w1 in
      (both ra rb, w2)
    else
      let (ra, w1) := first w in
      let (rb, w2) := second w1 in
      (both ra rb, w2).

(** Line 14: the connection string, the password percent-encoded. *)
Definition db_uri (user password host port database : string) : string :=
  ("mysql+mysqlconnector://" ++ user ++ ":" ++ quote password ++ "@"
   ++ host ++ ":" ++ port ++ "/" ++ database)%string.

Section Program.

Variable env : Env.

Definition SQLDatabase_from_uri (uri : string) : M SQLDatabase :=
  call (fun tr => from_uri env tr uri) (EvFromUri uri).

Definition db_get_table_info (d : SQLDatabase) : M string :=
  call (fun tr => get_table_info env tr d) (EvTableInfo d).

Definition db_run (d : SQLDatabase) (command : string) : M string :=
  call (fun tr => run env tr d command) (EvRun d command).

Definition llm_invoke (prompt : string) : M string :=
  call (fun tr => llm env tr prompt) (EvLLM prompt).

(** Lines 12-18. *)
Definition init_database (user password host port database : string)
  : M (option SQLDatabase) :=
  try_except
    (d <- SQLDatabase_from_uri (db_uri user password host port database) ;;
     ret (Some d))
    (fun e =>
       st_error ("Error initializing database: " ++ exc_msg e)%string ;;;
       ret None).

(** Lines 20-129.  The chain is a function of its input dictionary:
    [assign(schema=get_schema)] calls the database and adds its answer
    under ["schema"], the prompt formats the template, the model
    answers and the parser reads the answer's text. *)
Definition get_sql_chain (d : SQLDatabase) (input : dict) : M string :=
  schema <- db_get_table_info d ;;
  let vars := dict_set "schema" (VStr schema) input in
  prompt <- lift (format (repr_message env) get_sql_chain_template vars) ;;
  llm_invoke prompt.

(** Lines 149-162: [chain.invoke].  The first [assign] has one entry,
    the synthesis chain.  The second has two, [schema] and [response],
    which the library evaluates as one parallel map: the schema is
    fetched and the query is run whatever the other does, in an order
    that is not fixed, and a failure of the schema fetch hides one of
    the query. *)
Definition invoke_chain (user_query : string) (d : SQLDatabase)
  (history : list message) : M string :=
  let sql_chain := get_sql_chain d in
  let input :=
    [("question", VStr user_query); ("chat_history", VList history)] in
  query <- sql_chain input ;;
  let vars := dict_set "query" (VStr query) input in
  assigned <-
    (fun w =>
       parallel (schedule env (trace w))
         (db_get_table_info d)
         (command <- lift (match dict_item vars "query" with
                           | Ok v => as_str v
                           | Raised e => Raised e
                           end) ;;
          db_run d command)
         w) ;;
  let vars :=
    dict_set "response" (VStr (snd assigned))
      (dict_set "schema" (VStr (fst assigned)) vars) in
  prompt <- lift (format (repr_message env) get_response_template vars) ;;
  llm_invoke prompt.

(** Lines 131-167. *)
Definition get_response (user_query : string) (d : SQLDatabase)
  (history : list message) : M string :=
  raw_response <- invoke_chain user_query d history ;;
  cleaned_response <- lift (clean_response raw_response) ;;
  ret cleaned_response.

(** Lines 181-184; the rerun that ends the callback is the toolkit's. *)
Definition toggle_theme : M unit :=
  with_session
    (fun s =>
       set_theme (if String.eqb (theme s) "light" then "dark" else "light") s).

(** Lines 271-279: the Connect button. *)
Definition on_connect (user password host port database : string) : M unit :=
  d <- init_database user password host port database ;;
  match d with
  | Some h =>
      with_session (set_db h) ;;;
      with_session (set_chat_history []) ;;;
      st_success "Connected to database!"
  | None =>
      st_error "Failed to connect to database. Check your credentials."
  end.

(** Lines 298-303: the Send button.  The arguments of [get_response]
    are read after the human turn has been appended, and the history
    argument is the session's own list. *)
Definition on_send (user_query : string) : M unit :=
  chat_history_append (HumanMessage user_query) ;;;
  d <- session_db ;;
  history <- session_chat_history ;;
  response <- get_response user_query d history ;;
  chat_history_append (AIMessage response).

End Program.

(** ** The prompts, as functions of what is substituted *)

Definition sql_prompt (question : string) : string :=
  (sql_head ++ question ++ sql_middle ++ question ++ sql_tail)%string.

Definition answer_prompt (repr : message -> string) (schema : string)
  (history : list message) (query question response : string) : string :=
  (answer_head ++ schema ++ answer_after_schema
   ++ str_value repr (VList history) ++ answer_after_history ++ query
   ++ answer_after_query ++ question ++ answer_after_question ++ response
   ++ answer_tail)%string.

(** The events a statement adds to the trace when run from [w]. *)
Definition emitted {A : Type} (m : M A) (w : world) : list event :=
  skipn (List.length (trace w)) (trace (snd (m w))).

(** ** Sample environments *)

Definition sample_repr (m : message) : string :=
  match m with
  | AIMessage c => ("AIMessage(content='" ++ c ++ "')")%string
  | HumanMessage c => ("HumanMessage(content='" ++ c ++ "')")%string
  end.

(** A model that answers its first prompt with [query] and every later
    one with [answer], over a database that always returns [schema] and
    [rows]. *)
Definition answering_env (schema query rows answer : string) : Env :=
  {| repr_message := sample_repr;
     from_uri := fun _ _ => Ok (Handle 1);
     get_table_info := fun _ _ => Ok schema;
     run := fun _ _ _ => Ok rows;
     llm := fun tr _ =>
              match llm_prompts tr with
              | [] => Ok query
              | _ => Ok answer
              end;
     schedule := fun _ => false |}.

Definition sample_query : string :=
  "SELECT AVG(`Engagement Score`) AS avg_engagement_score FROM employee_engagement_survey_data;".

Definition sample_env : Env :=
  answering_env "CREATE TABLE employee_engagement_survey_data (...)"
    sample_query "[(3.27,)]" "The average engagement score is 3.27. It is stable.".


Definition OperationalError : exception :=
  Exception "OperationalError" "Can't connect to MySQL server".


Definition fresh_world : world :=
  {| session := initial_session; trace := [] |}.

Definition connected_world : world :=
  {| session := set_db (Handle 1) initial_session; trace := [] |}.

Definition sample_question : string := "What is the average engagement score?".

Definition other_env : Env :=
  answering_env "CREATE TABLE orders (id INT, total DECIMAL)"
    "SELECT COUNT(*) FROM orders;" "[(12,)]" "There are 12 orders.".

(** ** Further definitions: encodings, commands, user actions *)

(** Every character of [s] satisfies [p]. *)
Fixpoint all_chars (p : ascii -> bool) (s : string) : bool :=
  match s with
  | EmptyString => true
  | String c s' => p c && all_chars p s'
  end.

(** [len(s.encode())]: a [str] is modelled by the bytes of its UTF-8
    encoding, so this is the number of bytes, which is the number of
    characters for ASCII text only. *)
Definition utf8_length (s : string) : nat := String.length s.

(** The characters [quote] leaves as they are. *)
Definition unquoted (c : ascii) : bool :=
  always_safe c || Ascii.eqb c "/"%char.

(** The value of a hexadecimal digit. *)
Definition hex_value (c : ascii) : option nat :=
  let n := nat_of_ascii c in
  if (48 <=? n)%nat && (n <=? 57)%nat then Some (n - 48)
  else if (65 <=? n)%nat && (n <=? 70)%nat then Some (n - 55)
  else if (97 <=? n)%nat && (n <=? 102)%nat then Some (n - 87)
  else None.

(** Percent-decoding of bytes, as [urllib.parse.unquote_to_bytes] does
    it: a percent sign followed by two hexadecimal digits is one byte,
    anything else stands for itself.  The program does not call it; it
    is here to state that [quote] loses nothing. *)
Fixpoint unquote (s : string) : string :=
  match s with
  | EmptyString => EmptyString
  | String c s' =>
      if Ascii.eqb c "%"%char then
        match s' with
        | String a (String b rest) =>
            match hex_value a, hex_value b with
            | Some x, Some y => String (ascii_of_nat (16 * x + y)) (unquote rest)
            | _, _ => String c (unquote s')
            end
        | _ => String c (unquote s')
        end
      else String c (unquote s')
  end.

(** The commands run on a database, in order, with their handle. *)
Fixpoint db_commands (evs : list event) : list (SQLDatabase * string) :=
  match evs with
  | [] => []
  | EvRun d command _ :: evs' => (d, command) :: db_commands evs'
  | _ :: evs' => db_commands evs'
  end.

(** The two calls of the parallel map, in the order they were made. *)
Definition assign_events (second_first : bool) (d : SQLDatabase)
  (query : string) (rs rr : result string) : list event :=
  if second_first then [EvRun d query rr; EvTableInfo d rs]
  else [EvTableInfo d rs; EvRun d query rr].

(** What was called after the first call that raised. *)
Fixpoint calls_after_raise (evs : list event) : list event :=
  match evs with
  | [] => []
  | ev :: rest =>
      match raised_by ev with
      | Some _ => rest
      | None => calls_after_raise rest
      end
  end.

(** The runs of the chain of [get_response], by outcome and calls made:
    the first schema fetch raised; the synthesis call raised; the
    parallel map raised, after both of its calls; or the answer prompt
    was sent, and its outcome is the chain's. *)
Inductive chain_run (repr : message -> string) (user_query : string)
  (d : SQLDatabase) (history : list message)
  : result string -> list event -> Prop :=
| run_no_schema (e : exception) :
    chain_run repr user_query d history (Raised e)
      [EvTableInfo d (Raised e)]
| run_no_query (schema0 : string) (e : exception) :
    chain_run repr user_query d history (Raised e)
      [EvTableInfo d (Ok schema0); EvLLM (sql_prompt user_query) (Raised e)]
| run_assign_raised (schema0 query : string) (b : bool)
    (rs rr : result string) (e : exception) :
    both rs rr = Raised e ->
    chain_run repr user_query d history (Raised e)
      (EvTableInfo d (Ok schema0) :: EvLLM (sql_prompt user_query) (Ok query)
       :: assign_events b d query rs rr)
| run_answered (schema0 query : string) (b : bool)
    (schema response : string) (r : result string) :
    chain_run repr user_query d history r
      (EvTableInfo d (Ok schema0) :: EvLLM (sql_prompt user_query) (Ok query)
       :: assign_events b d query (Ok schema) (Ok response)
       ++ [EvLLM
             (answer_prompt repr schema history query user_query response)
             r]).

(** An answer as [get_response] shapes it: one period, at the end. *)
Definition one_sentence (s : string) : bool :=
  Nat.eqb (count period s) 1
  && match last_char s with
     | Some c => Ascii.eqb c period
     | None => false
     end.

Definition is_human (m : message) : bool :=
  match m with
  | HumanMessage _ => true
  | AIMessage _ => false
  end.

(** A turn as Send leaves it: a question, or an answer of one sentence. *)
Definition sent_turn (m : message) : bool :=
  match m with
  | HumanMessage _ => true
  | AIMessage c => one_sentence c
  end.

(** The database refuses to describe itself. *)
Definition unreachable_env : Env :=
  {| repr_message := sample_repr;
     from_uri := fun _ _ => Ok (Handle 1);
     get_table_info := fun _ _ => Raised OperationalError;
     run := fun _ _ _ => Raised OperationalError;
     llm := fun _ _ => Ok sample_query;
     schedule := fun _ => false |}.

Definition ProgrammingError : exception :=
  Exception "ProgrammingError" "You have an error in your SQL syntax".

(** The database describes itself once, for the synthesis chain; after
    that the schema fetch fails and so does every query. *)
Definition hiding_env (run_first : bool) : Env :=
  {| repr_message := sample_repr;
     from_uri := fun _ _ => Ok (Handle 1);
     get_table_info := fun tr _ =>
                         match llm_prompts tr with
                         | [] => Ok "CREATE TABLE t (x INT)"
                         | _ => Raised OperationalError
                         end;
     run := fun _ _ _ => Raised ProgrammingError;
     llm := fun _ _ => Ok "SELEC 1";
     schedule := fun _ => run_first |}.

(** What a user can do on the page.  Each interaction runs the script
    once, with one button pressed (lines 271, 298 and 306). *)
Inductive action : Type :=
| Connect (user password host port database : string)
| Send (user_query : string)
| ToggleTheme.

Definition is_connect (a : action) : bool :=
  match a with
  | Connect _ _ _ _ _ => true
  | _ => false
  end.

Definition is_send (a : action) : bool :=
  match a with
  | Send _ => true
  | _ => false
  end.

Definition handle (env : Env) (a : action) : M unit :=
  match a with
  | Connect user password host port database =>
      on_connect env user password host port database
  | Send user_query => on_send env user_query
  | ToggleTheme => toggle_theme
  end.

(** A session: one run per action.  An exception ends the run it occurs
    in; the session state it left behind is what the next run starts
    from. *)
Fixpoint interact (env : Env) (actions : list action) (w : world) : world :=
  match actions with
  | [] => w
  | a :: actions' => interact env actions' (snd (handle env a w))
  end.

Definition offline_env : Env :=
  {| repr_message := sample_repr;
     from_uri := fun _ _ => Raised OperationalError;
     get_table_info := fun _ _ => Ok "CREATE TABLE t (x INT)";
     run := fun _ _ _ => Ok "[(1,)]";
     llm := fun _ _ => Ok "It is 1.";
     schedule := fun _ => true |}.

(** ** The top of the script: session keys and the stylesheet *)

(** [st.session_state] as the script finds it: each key is there or
    not. *)
Record raw_session_state : Type := {
  raw_chat_history : option (list message);
  raw_db : option SQLDatabase;
  raw_theme : option string
}.

(** Lines 169-172. *)
Definition init_chat_history (s : raw_session_state) : raw_session_state :=
  match raw_chat_history s with
  | Some _ => s
  | None =>
      {| raw_chat_history :=
           Some
             [AIMessage
                "Hello! I'm a SQL assistant. Ask me anything about your database."];
         raw_db := raw_db s;
         raw_theme := raw_theme s |}
  end.

(** Lines 187-188. *)
Definition init_theme (s : raw_session_state) : raw_session_state :=
  match raw_theme s with
  | Some _ => s
  | None =>
      {| raw_chat_history := raw_chat_history s;
         raw_db := raw_db s;
         raw_theme := Some "light"%string |}
  end.

(** Lines 282-283. *)
Definition init_chat_history_empty (s : raw_session_state)
  : raw_session_state :=
  match raw_chat_history s with
  | Some _ => s
  | None =>
      {| raw_chat_history := Some [];
         raw_db := raw_db s;
         raw_theme := raw_theme s |}
  end.

(** The session the handlers work on, once both keys are set. *)
Definition complete (s : raw_session_state) : option session_state :=
  match raw_chat_history s, raw_theme s with
  | Some h, Some t => Some {| chat_history := h; db := raw_db s; theme := t |}
  | _, _ => None
  end.

(** [str.format] with keyword arguments: replacement fields [{name}],
    and doubled braces for literal ones. *)
Inductive format_state : Type :=
| InText
| AfterOpen
| InField (name : string)
| AfterClose.

Fixpoint parse_format (s : string) (st : format_state) : result (list piece) :=
  match s, st with
  | EmptyString, InText => Ok []
  | EmptyString, AfterOpen =>
      Raised (ValueError "Single '{' encountered in format string")
  | EmptyString, InField _ =>
      Raised (ValueError "expected '}' before end of string")
  | EmptyString, AfterClose =>
      Raised (ValueError "Single '}' encountered in format string")
  | String c s', InText =>
      if Ascii.eqb c "{"%char then parse_format s' AfterOpen
      else if Ascii.eqb c "}"%char then parse_format s' AfterClose
      else match parse_format s' InText with
           | Ok ps => Ok (cons_lit c ps)
           | Raised e => Raised e
           end
  | String c s', AfterOpen =>
      if Ascii.eqb c "{"%char then
        match parse_format s' InText with
        | Ok ps => Ok (cons_lit "{"%char ps)
        | Raised e => Raised e
        end
      else if Ascii.eqb c "}"%char then
        match parse_format s' InText with
        | Ok ps => Ok (Field EmptyString :: ps)
        | Raised e => Raised e
        end
      else parse_format s' (InField (String c EmptyString))
  | String c s', InField name =>
      if Ascii.eqb c "}"%char then
        match parse_format s' InText with
        | Ok ps => Ok (Field name :: ps)
        | Raised e => Raised e
        end
      else parse_format s' (InField (name ++ String c EmptyString)%string)
  | String c s', AfterClose =>
      if Ascii.eqb c "}"%char then
        match parse_format s' InText with
        | Ok ps => Ok (cons_lit "}"%char ps)
        | Raised e => Raised e
        end
      else Raised (ValueError "Single '}' encountered in format string")
  end.

Definition str_format (template : string) (kwargs : dict) : result string :=
  match parse_format template InText with
  | Ok ps => render content ps kwargs
  | Raised e => Raised e
  end.

(** Lines 192-240: the stylesheet, as written in the source. *)
Definition theme_styles_template : string :=
"
    <style>
    body {{
        color: {text_color};
        background-color: {bg_color};
    }}
    .stButton>button {{
        background-color: {button_bg};
        color: {button_text};
        border-radius: 10px;
        border: none;
        padding: 10px 20px;
        font-size: 16px;
        cursor: pointer;
        transition: background-color 0.3s, color 0.3s;
    }}
    .stButton>button:hover {{
        background-color: {button_hover_bg};
        color: {button_hover_text};
    }}
    .stTextInput>div>div>input, .stTextArea>div>div>textarea {{
        background-color: {input_bg};
        color: {input_text};
        border-radius: 10px;
        border: 1px solid {border_color};
        padding: 10px;
        font-size: 16px;
        width: 100%;
    }}
    .chat-message {{
        border-radius: 10px;
        padding: 10px;
        margin: 5px 0;
        max-width: 80%;
        display: inline-block;
    }}
    .ai-message {{
        background-color: {ai_bg};
        color: {ai_text};
        text-align: right;
        float: right;
    }}
    .human-message {{
        background-color: {human_bg};
        color: {human_text};
        text-align: left;
        float: left;
    }}
    </style>
".

(** Lines 191 and 241-255: the colours chosen by [dark_theme]. *)
Definition theme_styles_for (dark_theme : bool) : result string :=
  let pick (dark light : string) := VStr (if dark_theme then dark else light) in
  str_format theme_styles_template
    [("text_color", pick "white" "black");
     ("bg_color", pick "#1E1E1E" "white");
     ("button_bg", pick "#333" "#e0e0e0");
     ("button_text", pick "white" "black");
     ("button_hover_bg", pick "#444" "#c0c0c0");
     ("button_hover_text", pick "white" "black");
     ("input_bg", pick "#333" "#f0f0f0");
     ("input_text", pick "white" "black");
     ("border_color", pick "#444" "#ddd");
     ("ai_bg", pick "#282828" "#e0e0e0");
     ("ai_text", pick "white" "black");
     ("human_bg", pick "#1E1E1E" "#f0f0f0");
     ("human_text", pick "white" "black")].

Definition theme_styles (s : session_state) : result string :=
  theme_styles_for (String.eqb (theme s) "dark").

(** * Lemmas *)

(** ** Lemmas on splitting *)

Lemma split_nonempty (sep : ascii) (s : string) : split sep s <> [].
Proof.
  induction s as [|c s IH]; simpl; [discriminate|].
  destruct (Ascii.eqb c sep); [discriminate|].
  destruct (split sep s); discriminate.
Qed.

Lemma split_no_sep (sep : ascii) (s : string) :
  contains sep s = false -> split sep s = [s].
Proof.
  induction s as [|c s IH]; simpl; intros H; [reflexivity|].
  apply orb_false_iff in H as [Hc Hs].
  rewrite Hc, (IH Hs). reflexivity.
Qed.

Lemma split_first_sep (sep : ascii) (pre rest : string) :
  contains sep pre = false ->
  split sep (pre ++ String sep rest)%string = pre :: split sep rest.
Proof.
  induction pre as [|c pre IH]; simpl; intros H.
  - rewrite Ascii.eqb_refl. reflexivity.
  - apply orb_false_iff in H as [Hc Hs].
    rewrite Hc, (IH Hs). reflexivity.
Qed.

Lemma contains_decompose (c : ascii) (s : string) :
  contains c s = true ->
  exists pre rest, s = (pre ++ String c rest)%string /\ contains c pre = false.
Proof.
  induction s as [|c' s IH]; simpl; intros H; [discriminate|].
  destruct (Ascii.eqb c' c) eqn:E.
  - apply Ascii.eqb_eq in E. subst c'.
    exists EmptyString, s. split; reflexivity.
  - simpl in H. destruct (IH H) as (pre & rest & -> & Hpre).
    exists (String c' pre), rest. split; [reflexivity|].
    simpl. rewrite E, Hpre. reflexivity.
Qed.

Lemma count_app (c : ascii) (s t : string) :
  count c (s ++ t)%string = count c s + count c t.
Proof.
  induction s as [|c' s IH]; simpl; [reflexivity|].
  rewrite IH. lia.
Qed.

Lemma count_absent (c : ascii) (s : string) :
  contains c s = false -> count c s = 0.
Proof.
  induction s as [|c' s IH]; simpl; intros H; [reflexivity|].
  apply orb_false_iff in H as [Hc Hs].
  rewrite Hc, (IH Hs). reflexivity.
Qed.

Lemma last_char_snoc (s : string) (c : ascii) :
  last_char (s ++ String c EmptyString)%string = Some c.
Proof.
  induction s as [|c' s IH]; simpl; [reflexivity|].
  rewrite IH. destruct s; reflexivity.
Qed.

(** The first segment is the text before the first separator, or the
    whole text when there is none. *)
Lemma split_head (sep : ascii) (s : string) :
  exists first segs,
    split sep s = first :: segs /\
    contains sep first = false /\
    (contains sep s = false -> first = s /\ segs = []) /\
    (contains sep s = true ->
     exists rest, s = (first ++ String sep rest)%string).
Proof.
  destruct (contains sep s) eqn:E.
  - destruct (contains_decompose _ _ E) as (pre & rest & -> & Hpre).
    exists pre, (split sep rest). rewrite split_first_sep by assumption.
    repeat split; try assumption; try discriminate.
    intros _. exists rest. reflexivity.
  - exists s, []. rewrite split_no_sep by assumption.
    repeat split; try assumption; try reflexivity; discriminate.
Qed.

Lemma clean_response_first (raw : string) :
  exists first,
    clean_response raw = Ok (first ++ ".")%string /\
    contains period first = false /\
    (contains period raw = false -> first = raw) /\
    (contains period raw = true ->
     exists rest, raw = (first ++ String period rest)%string).
Proof.
  destruct (split_head period raw) as (first & segs & Hs & Hf & Hn & Hy).
  exists first. unfold clean_response, getitem. rewrite Hs. simpl.
  repeat split; try assumption.
  intros H. apply Hn, H.
Qed.

Lemma append_cancel_l (a b c : string) :
  (a ++ b = a ++ c)%string -> b = c.
Proof.
  induction a as [|x a IH]; simpl; intros H; [assumption|].
  injection H as H. apply IH, H.
Qed.

Lemma append_length (a b : string) :
  String.length (a ++ b)%string = String.length a + String.length b.
Proof.
  induction a as [|x a IH]; simpl; [reflexivity|].
  rewrite IH. reflexivity.
Qed.

Lemma append_cancel_r (a b t : string) :
  (a ++ t = b ++ t)%string -> a = b.
Proof.
  intros H.
  assert (L : String.length a = String.length b).
  { apply (f_equal String.length) in H. rewrite !append_length in H. lia. }
  revert b H L. induction a as [|x a IH]; intros [|y b] H L;
    simpl in *; try discriminate; [reflexivity|].
  injection H as -> H. f_equal. apply IH; [assumption | lia].
Qed.

(** ** The templates, parsed *)

Lemma get_sql_chain_template_pieces :
  parse_template get_sql_chain_template None =
  Ok [Lit sql_head; Field "question"; Lit sql_middle; Field "question";
      Lit sql_tail].
Proof. vm_compute. reflexivity. Qed.

Lemma get_response_template_pieces :
  parse_template get_response_template None =
  Ok [Lit answer_head; Field "schema"; Lit answer_after_schema;
      Field "chat_history"; Lit answer_after_history; Field "query";
      Lit answer_after_query; Field "question"; Lit answer_after_question;
      Field "response"; Lit answer_tail].
Proof. vm_compute. reflexivity. Qed.

(** ** Formatting *)

Lemma append_empty_r (s : string) : (s ++ "")%string = s.
Proof.
  induction s as [|c s IH]; simpl; [reflexivity|].
  rewrite IH. reflexivity.
Qed.

Lemma dict_get_set_other (key k : string) (v : value) (d : dict) :
  String.eqb key k = false ->
  dict_get (dict_set key v d) k = dict_get d k.
Proof.
  intros Hk. induction d as [|[k' v'] d IH]; simpl.
  - rewrite Hk. reflexivity.
  - destruct (String.eqb k' key) eqn:E; simpl.
    + apply String.eqb_eq in E. subst k'. rewrite Hk. reflexivity.
    + destruct (String.eqb k' k); [reflexivity | apply IH].
Qed.

Lemma format_sql_template (repr : message -> string) (vars : dict)
  (question : string) :
  dict_get vars "question" = Some (VStr question) ->
  format repr get_sql_chain_template vars = Ok (sql_prompt question).
Proof.
  intros H. unfold format. rewrite get_sql_chain_template_pieces.
  cbn [render]. unfold dict_item. rewrite H. cbn [str_value].
  rewrite append_empty_r. reflexivity.
Qed.

Lemma format_answer_template (repr : message -> string)
  (schema query question response : string) (history : list message) :
  format repr get_response_template
    (dict_set "response" (VStr response)
       (dict_set "schema" (VStr schema)
          (dict_set "query" (VStr query)
             [("question", VStr question); ("chat_history", VList history)])))
  = Ok (answer_prompt repr schema history query question response).
Proof.
  unfold format. rewrite get_response_template_pieces.
  cbn [render].
  change (dict_item _ "schema") with (Ok (VStr schema)).
  change (dict_item _ "chat_history") with (Ok (VList history)).
  change (dict_item _ "query") with (Ok (VStr query)).
  change (dict_item _ "question") with (Ok (VStr question)).
  change (dict_item _ "response") with (Ok (VStr response)).
  cbn [str_value]. rewrite append_empty_r. reflexivity.
Qed.

Section Runs.

Variable env : Env.

(** What one run of the synthesis chain does, call by call. *)
Lemma get_sql_chain_run (d : SQLDatabase) (input : dict) (question : string)
  (w : world) :
  dict_get input "question" = Some (VStr question) ->
  get_sql_chain env d input w =
  match get_table_info env (trace w) d with
  | Ok schema =>
      let w1 := log (EvTableInfo d (Ok schema)) w in
      let r := llm env (trace w1) (sql_prompt question) in
      (r, log (EvLLM (sql_prompt question) r) w1)
  | Raised e => (Raised e, log (EvTableInfo d (Raised e)) w)
  end.
Proof.
  intros H. unfold get_sql_chain, bind, db_get_table_info, call.
  destruct (get_table_info env (trace w) d) as [schema|e]; [|reflexivity].
  rewrite (format_sql_template _ _ question).
  - reflexivity.
  - rewrite dict_get_set_other by reflexivity. exact H.
Qed.

Lemma parallel_assign (d : SQLDatabase) (query : string) (b : bool)
  (w : world) :
  parallel b (db_get_table_info env d) (db_run env d query) w =
  if b then
    let rr := run env (trace w) d query in
    let rs := get_table_info env (trace w ++ [EvRun d query rr]) d in
    (both rs rr, log (EvTableInfo d rs) (log (EvRun d query rr) w))
  else
    let rs := get_table_info env (trace w) d in
    let rr := run env (trace w ++ [EvTableInfo d rs]) d query in
    (both rs rr, log (EvRun d query rr) (log (EvTableInfo d rs) w)).
Proof. destruct b; reflexivity. Qed.

(** What one run of the whole chain does, call by call. *)
Lemma invoke_chain_run (user_query : string) (d : SQLDatabase)
  (history : list message) (w : world) :
  invoke_chain env user_query d history w =
  match get_table_info env (trace w) d with
  | Raised e => (Raised e, log (EvTableInfo d (Raised e)) w)
  | Ok schema0 =>
      let w1 := log (EvTableInfo d (Ok schema0)) w in
      match llm env (trace w1) (sql_prompt user_query) with
      | Raised e => (Raised e, log (EvLLM (sql_prompt user_query) (Raised e)) w1)
      | Ok query =>
          let w2 := log (EvLLM (sql_prompt user_query) (Ok query)) w1 in
          match
            parallel (schedule env (trace w2)) (db_get_table_info env d)
              (db_run env d query) w2
          with
          | (Raised e, w4) => (Raised e, w4)
          | (Ok (schema, response), w4) =>
              let prompt :=
                answer_prompt (repr_message env) schema history query
                  user_query response in
              let r := llm env (trace w4) prompt in
              (r, log (EvLLM prompt r) w4)
          end
      end
  end.
Proof.
  unfold invoke_chain, bind at 1.
  rewrite (get_sql_chain_run _ _ user_query) by reflexivity.
  destruct (get_table_info env (trace w) d) as [schema0|e]; [|reflexivity].
  cbv zeta.
  destruct (llm env _ (sql_prompt user_query)) as [query|e]; [|reflexivity].
  unfold bind at 1.
  change (dict_item _ "query") with (Ok (VStr query)). cbn [as_str].
  change (bind (lift (Ok query)) (fun command => db_run env d command))
    with (db_run env d query).
  destruct (parallel _ (db_get_table_info env d) (db_run env d query) _)
    as [[[schema response]|e] w4]; [|reflexivity].
  unfold bind, lift. cbn [fst snd].
  rewrite format_answer_template. reflexivity.
Qed.

End Runs.

(** ** Traces *)

Lemma skipn_length_app {A : Type} (l k : list A) :
  skipn (List.length l) (l ++ k) = k.
Proof. induction l as [|x l IH]; simpl; [reflexivity | exact IH]. Qed.

Lemma emitted_extends {A : Type} (m : M A) (w : world) (evs : list event) :
  trace (snd (m w)) = trace w ++ evs -> emitted m w = evs.
Proof. intros H. unfold emitted. rewrite H. apply skipn_length_app. Qed.

Lemma trace_log (ev : event) (w : world) : trace (log ev w) = trace w ++ [ev].
Proof. reflexivity. Qed.

Lemma app_cons_assoc {A : Type} (l : list A) (x : A) (k : list A) :
  (l ++ [x]) ++ k = l ++ x :: k.
Proof. rewrite <- app_assoc. reflexivity. Qed.

Section Pipeline.

Variable env : Env.

(** [get_response] is the chain followed by the truncation, whatever
    the chain returned. *)
Lemma get_response_run (user_query : string) (d : SQLDatabase)
  (history : list message) (w : world) :
  get_response env user_query d history w =
  match invoke_chain env user_query d history w with
  | (Ok raw_response, w') => (clean_response raw_response, w')
  | (Raised e, w') => (Raised e, w')
  end.
Proof.
  unfold get_response, bind, lift, ret.
  destruct (invoke_chain env user_query d history w) as [[raw|e] w'];
    [|reflexivity].
  destruct (clean_response raw); reflexivity.
Qed.

(** The chain changes nothing in the session and only adds to the
    trace, in one of the four ways of [chain_run]. *)
Lemma invoke_chain_shape (user_query : string) (d : SQLDatabase)
  (history : list message) (w : world) :
  session (snd (invoke_chain env user_query d history w)) = session w /\
  exists evs,
    trace (snd (invoke_chain env user_query d history w)) = trace w ++ evs /\
    chain_run (repr_message env) user_query d history
      (fst (invoke_chain env user_query d history w)) evs.
Proof.
  rewrite invoke_chain_run.
  destruct (get_table_info env (trace w) d) as [schema0|e].
  2:{ split; [reflexivity|]. eexists. split; [reflexivity|]. constructor. }
  cbv zeta.
  destruct (llm env _ (sql_prompt user_query)) as [query|e].
  2:{ split; [reflexivity|]. eexists. split.
      { simpl. rewrite app_cons_assoc. reflexivity. }
      constructor. }
  rewrite parallel_assign.
  destruct (schedule env _); cbv zeta.
  - match goal with
    | |- context [run env ?t d query] =>
        destruct (run env t d query) as [response|er]
    end;
    match goal with
    | |- context [get_table_info env ?t d] =>
        destruct (get_table_info env t d) as [schema|es]
    end;
    cbn [both]; (split; [reflexivity|]); simpl; rewrite ?app_cons_assoc;
    eexists; (split; [reflexivity|]).
    + apply (run_answered (repr_message env) user_query d history
               schema0 query true schema response).
    + apply (run_assign_raised (repr_message env) user_query d history
               schema0 query true (Raised es) (Ok response) es eq_refl).
    + apply (run_assign_raised (repr_message env) user_query d history
               schema0 query true (Ok schema) (Raised er) er eq_refl).
    + apply (run_assign_raised (repr_message env) user_query d history
               schema0 query true (Raised es) (Raised er) es eq_refl).
  - match goal with
    | |- context [get_table_info env ?t d] =>
        destruct (get_table_info env t d) as [schema|es]
    end;
    match goal with
    | |- context [run env ?t d query] =>
        destruct (run env t d query) as [response|er]
    end;
    cbn [both]; (split; [reflexivity|]); simpl; rewrite ?app_cons_assoc;
    eexists; (split; [reflexivity|]).
    + apply (run_answered (repr_message env) user_query d history
               schema0 query false schema response).
    + apply (run_assign_raised (repr_message env) user_query d history
               schema0 query false (Ok schema) (Raised er) er eq_refl).
    + apply (run_assign_raised (repr_message env) user_query d history
               schema0 query false (Raised es) (Ok response) es eq_refl).
    + apply (run_assign_raised (repr_message env) user_query d history
               schema0 query false (Raised es) (Raised er) es eq_refl).
Qed.

(** What the Send handler does, in terms of [get_response]. *)
Lemma on_send_run (user_query : string) (w : world) :
  on_send env user_query w =
  let history := chat_history (session w) ++ [HumanMessage user_query] in
  let w1 := {| session := set_chat_history history (session w);
               trace := trace w |} in
  match db (session w) with
  | None =>
      (Raised (AttributeError "st.session_state has no attribute db"), w1)
  | Some d =>
      match get_response env user_query d history w1 with
      | (Ok response, w2) =>
          (Ok tt,
           {| session :=
                set_chat_history
                  (chat_history (session w2) ++ [AIMessage response])
                  (session w2);
              trace := trace w2 |})
      | (Raised e, w2) => (Raised e, w2)
      end
  end.
Proof.
  unfold on_send, bind, chat_history_append, with_session, session_db,
    session_chat_history. simpl.
  destruct (db (session w)) as [d|]; [|reflexivity].
  destruct (get_response env user_query d _ _) as [[response|e] w2];
    reflexivity.
Qed.

End Pipeline.

(** ** Helper facts on the prompts and on the session *)

Lemma answer_prompt_schema_inj (repr : message -> string)
  (schema1 schema2 : string) (history : list message)
  (query question response : string) :
  answer_prompt repr schema1 history query question response
  = answer_prompt repr schema2 history query question response ->
  schema1 = schema2.
Proof.
  unfold answer_prompt. intros H.
  apply append_cancel_l in H. apply append_cancel_r in H. exact H.
Qed.

Lemma get_sql_chain_prompts (env : Env) (d : SQLDatabase) (input : dict)
  (question schema : string) (w : world) :
  dict_get input "question" = Some (VStr question) ->
  get_table_info env (trace w) d = Ok schema ->
  llm_prompts (emitted (get_sql_chain env d input) w) = [sql_prompt question].
Proof.
  intros Hq Hs.
  rewrite (emitted_extends _ _
             [EvTableInfo d (Ok schema);
              EvLLM (sql_prompt question)
                (llm env (trace w ++ [EvTableInfo d (Ok schema)])
                   (sql_prompt question))]).
  - reflexivity.
  - rewrite (get_sql_chain_run env d input question w Hq), Hs.
    simpl. rewrite app_cons_assoc. reflexivity.
Qed.

Lemma llm_prompts_app (a b : list event) :
  llm_prompts (a ++ b) = llm_prompts a ++ llm_prompts b.
Proof.
  induction a as [|ev a IH]; simpl; [reflexivity|].
  destruct ev; simpl; rewrite IH; reflexivity.
Qed.

Lemma llm_prompts_assign (b : bool) (d : SQLDatabase) (query : string)
  (rs rr : result string) :
  llm_prompts (assign_events b d query rs rr) = [].
Proof. destruct b; reflexivity. Qed.

(** The calls a run of the chain added to the trace. *)
Lemma invoke_chain_emitted (env : Env) (user_query : string) (d : SQLDatabase)
  (history : list message) (w : world) :
  trace (snd (invoke_chain env user_query d history w))
  = trace w ++ emitted (invoke_chain env user_query d history) w /\
  chain_run (repr_message env) user_query d history
    (fst (invoke_chain env user_query d history w))
    (emitted (invoke_chain env user_query d history) w).
Proof.
  destruct (invoke_chain_shape env user_query d history w)
    as (_ & evs & Ht & Hrun).
  rewrite (emitted_extends _ _ evs Ht). split; assumption.
Qed.

(** When a run sends two prompts, the first is the synthesis prompt and
    the second the answer prompt, built from a schema, the history
    passed in, the model's query and a response of the database. *)
Lemma chain_run_prompts (repr : message -> string) (user_query : string)
  (d : SQLDatabase) (history : list message) (r : result string)
  (evs : list event) (p1 p2 : string) :
  chain_run repr user_query d history r evs ->
  llm_prompts evs = [p1; p2] ->
  p1 = sql_prompt user_query /\
  exists schema query response,
    p2 = answer_prompt repr schema history query user_query response.
Proof.
  intros Hrun. destruct Hrun as [e | s0 e | s0 q b rs rr e Hb | s0 q b s rp r];
    simpl; rewrite ?llm_prompts_app, ?llm_prompts_assign; simpl;
    try discriminate.
  intros H. injection H as <- <-. split; [reflexivity|].
  exists s, q, rp. reflexivity.
Qed.

Lemma invoke_chain_prompts (env : Env) (user_query : string) (d : SQLDatabase)
  (history : list message) (w : world) (p1 p2 : string) :
  llm_prompts (emitted (invoke_chain env user_query d history) w) = [p1; p2] ->
  p1 = sql_prompt user_query /\
  exists schema query response,
    p2 = answer_prompt (repr_message env) schema history query user_query
           response.
Proof.
  apply chain_run_prompts with (d := d) (r := fst (invoke_chain env user_query d history w)).
  apply invoke_chain_emitted.
Qed.

Lemma get_response_trace (env : Env) (user_query : string) (d : SQLDatabase)
  (history : list message) (w : world) :
  snd (get_response env user_query d history w)
  = snd (invoke_chain env user_query d history w).
Proof.
  rewrite get_response_run.
  destruct (invoke_chain env user_query d history w) as [[raw|e] w'];
    reflexivity.
Qed.

Lemma get_response_session (env : Env) (user_query : string) (d : SQLDatabase)
  (history : list message) (w : world) :
  session (snd (get_response env user_query d history w)) = session w.
Proof.
  rewrite get_response_trace. apply invoke_chain_shape.
Qed.

Lemma init_database_run (env : Env) (user password host port database : string)
  (w : world) :
  init_database env user password host port database w =
  let uri := db_uri user password host port database in
  match from_uri env (trace w) uri with
  | Ok d => (Ok (Some d), log (EvFromUri uri (Ok d)) w)
  | Raised e =>
      (Ok None,
       log (EvStError ("Error initializing database: " ++ exc_msg e)%string)
         (log (EvFromUri uri (Raised e)) w))
  end.
Proof.
  cbv zeta. unfold init_database, try_except, bind, SQLDatabase_from_uri, call.
  destruct (from_uri env (trace w) _); reflexivity.
Qed.

Lemma on_send_emitted (env : Env) (user_query : string) (w : world)
  (d : SQLDatabase) :
  db (session w) = Some d ->
  emitted (on_send env user_query) w
  = emitted
      (invoke_chain env user_query d
         (chat_history (session w) ++ [HumanMessage user_query]))
      {| session :=
           set_chat_history
             (chat_history (session w) ++ [HumanMessage user_query])
             (session w);
         trace := trace w |}.
Proof.
  intros Hdb. unfold emitted. rewrite on_send_run, Hdb. cbv zeta.
  rewrite <- get_response_trace.
  destruct (get_response env user_query d _ _) as [[response|e] w2];
    reflexivity.
Qed.

(** The exceptions of a run: the outcome is an exception some call
    raised; an exception of the model or of a schema fetch is the
    outcome; one of the query is the outcome unless the schema fetch
    beside it raised; and after a call has raised, at most the other
    call of the same parallel map is made, and no prompt is sent. *)
Ltac raised_at :=
  solve
    [ eexists; split; [left; reflexivity | reflexivity]
    | eexists; split; [right; left; reflexivity | reflexivity]
    | eexists; split; [right; right; left; reflexivity | reflexivity]
    | eexists; split; [right; right; right; left; reflexivity | reflexivity]
    | eexists; split;
      [right; right; right; right; left; reflexivity | reflexivity] ].

Lemma chain_run_errors (repr : message -> string) (user_query : string)
  (d : SQLDatabase) (history : list message) (r : result string)
  (evs : list event) :
  chain_run repr user_query d history r evs ->
  (forall e, r = Raised e -> exists ev, In ev evs /\ raised_by ev = Some e) /\
  (forall ev e,
     In ev evs -> raised_by ev = Some e ->
     (forall d' c r', ev <> EvRun d' c r') ->
     r = Raised e) /\
  (forall d' c e,
     In (EvRun d' c (Raised e)) evs ->
     r = Raised e \/
     exists e', In (EvTableInfo d (Raised e')) evs /\ r = Raised e') /\
  llm_prompts (calls_after_raise evs) = [] /\
  List.length (calls_after_raise evs) <= 1.
Proof.
  intros Hrun.
  destruct Hrun as [e | s0 e | s0 q b rs rr e Hb | s0 q b s rp r].
  - repeat split; simpl; auto.
    + intros e' H. injection H as <-. eexists. split; [left; reflexivity|].
      reflexivity.
    + intros ev e' [<- | []] H _. simpl in H. congruence.
    + intros d' c e' [H | []]. discriminate.
  - repeat split; simpl; auto.
    + intros e' H. injection H as <-. eexists.
      split; [right; left; reflexivity | reflexivity].
    + intros ev e' [<- | [<- | []]] H _; simpl in H; congruence.
    + intros d' c e' [H | [H | []]]; discriminate.
  - destruct b, rs as [s|es], rr as [rp|er]; simpl in Hb; try discriminate;
      injection Hb as <-; repeat split; simpl; auto;
      try (intros e' H; injection H as <-; raised_at);
      try (intros ev e' Hin H Hnot; simpl in Hin;
           repeat destruct Hin as [<- | Hin]; try contradiction;
           simpl in H; try discriminate; try congruence;
           exfalso; eapply Hnot; reflexivity);
      try (intros d' c e' Hin; simpl in Hin;
           repeat destruct Hin as [Hin | Hin]; try contradiction;
           try discriminate; injection Hin as <- <- <-;
           first [ left; reflexivity
                 | right; eexists; refine (conj _ eq_refl); simpl; auto 6 ]).
  - destruct b; simpl; repeat split; auto;
      try (intros e' H; subst r; raised_at);
      try (intros ev e' Hin H Hnot; simpl in Hin;
           repeat destruct Hin as [<- | Hin]; try contradiction;
           simpl in H; try discriminate; destruct r; congruence);
      try (intros d' c e' Hin; simpl in Hin;
           repeat destruct Hin as [Hin | Hin]; try contradiction;
           discriminate);
      destruct r; simpl; auto.
Qed.

(** A run in which the database keeps describing itself as [schema] and
    answers the model's query sends the two prompts, the second built
    from that schema, whichever call of the parallel map comes first. *)
Lemma invoke_chain_answered (env : Env) (user_query : string) (d : SQLDatabase)
  (history : list message) (w : world) (schema query response : string) :
  (forall tr, get_table_info env tr d = Ok schema) ->
  llm env (trace w ++ [EvTableInfo d (Ok schema)]) (sql_prompt user_query)
  = Ok query ->
  (forall tr, run env tr d query = Ok response) ->
  llm_prompts (emitted (invoke_chain env user_query d history) w)
  = [sql_prompt user_query;
     answer_prompt (repr_message env) schema history query user_query
       response].
Proof.
  intros Hs Hq Hr. unfold emitted.
  rewrite invoke_chain_run, Hs. cbv zeta. rewrite trace_log, Hq.
  rewrite parallel_assign.
  destruct (schedule env _); cbv zeta; rewrite Hs, Hr; simpl;
    rewrite !app_cons_assoc, (skipn_length_app (trace w)); reflexivity.
Qed.

Lemma get_response_outcome (env : Env) (user_query : string) (d : SQLDatabase)
  (history : list message) (w : world) (e : exception) :
  fst (get_response env user_query d history w) = Raised e <->
  fst (invoke_chain env user_query d history w) = Raised e.
Proof.
  rewrite get_response_run.
  destruct (invoke_chain env user_query d history w) as [[raw|e0] w'];
    simpl; [|tauto].
  destruct (clean_response_first raw) as (first & -> & _).
  split; discriminate.
Qed.

(** * The claims *)

(** ** Truncation of the answer *)

(** C1. Whatever text the chain returns, [get_response] returns its
    truncation; when the text contains a period, that is the text before
    the first period followed by one period. *)
Theorem get_response_first_sentence (env : Env) (user_query : string)
  (d : SQLDatabase) (history : list message) (w w' : world)
  (raw_response : string) :
  invoke_chain env user_query d history w = (Ok raw_response, w') ->
  contains period raw_response = true ->
  get_response env user_query d history w = (clean_response raw_response, w') /\
  exists pre rest,
    raw_response = (pre ++ "." ++ rest)%string /\
    contains period pre = false /\
    get_response env user_query d history w = (Ok (pre ++ ".")%string, w').
Proof.
  intros Hrun Hdot. rewrite get_response_run, Hrun.
  split; [reflexivity|].
  destruct (clean_response_first raw_response) as (pre & Hclean & Hpre & _ & Hrest).
  destruct (Hrest Hdot) as [rest Hraw].
  exists pre, rest. rewrite Hclean. repeat split; assumption.
Qed.

Lemma get_response_first_sentence_witness :
  exists pre rest,
    "The average engagement score is 3.27. It is stable."
    = (pre ++ "." ++ rest)%string /\
    contains period pre = false /\
    get_response sample_env sample_question (Handle 1) [] connected_world
    = (Ok (pre ++ ".")%string,
       snd (invoke_chain sample_env sample_question (Handle 1) []
              connected_world)).
Proof.
  apply (@get_response_first_sentence sample_env sample_question (Handle 1) []
           connected_world
           (snd (invoke_chain sample_env sample_question (Handle 1) []
                   connected_world))
           "The average engagement score is 3.27. It is stable.").
  - vm_compute. reflexivity.
  - vm_compute. reflexivity.
Defined.

(** C4. On a text without a period the indexing after the split is
    defined, and [get_response] returns the whole text followed by one
    period. *)
Theorem get_response_without_period (env : Env) (user_query : string)
  (d : SQLDatabase) (history : list message) (w w' : world)
  (raw_response : string) :
  invoke_chain env user_query d history w = (Ok raw_response, w') ->
  contains period raw_response = false ->
  getitem (split period raw_response) 0 = Ok raw_response /\
  get_response env user_query d history w
  = (Ok (raw_response ++ ".")%string, w').
Proof.
  intros Hrun Hdot. rewrite get_response_run, Hrun.
  unfold clean_response. rewrite (split_no_sep _ _ Hdot).
  split; reflexivity.
Qed.

Lemma get_response_without_period_witness :
  getitem (split period "There are 42 employees") 0
  = Ok "There are 42 employees" /\
  get_response
    (answering_env "CREATE TABLE employee_data (...)"
       "SELECT COUNT(*) FROM employee_data;" "[(42,)]"
       "There are 42 employees")
    "How many employees are there?" (Handle 1) [] connected_world
  = (Ok "There are 42 employees.",
     snd (invoke_chain
            (answering_env "CREATE TABLE employee_data (...)"
               "SELECT COUNT(*) FROM employee_data;" "[(42,)]"
               "There are 42 employees")
            "How many employees are there?" (Handle 1) [] connected_world)).
Proof.
  apply (@get_response_without_period
           (answering_env "CREATE TABLE employee_data (...)"
              "SELECT COUNT(*) FROM employee_data;" "[(42,)]"
              "There are 42 employees")
           "How many employees are there?" (Handle 1) [] connected_world).
  - vm_compute. reflexivity.
  - vm_compute. reflexivity.
Defined.

(** C5. Truncating a text that contains a period and truncating the
    outcome again gives the same text as truncating once. *)
Theorem clean_response_idempotent (s : string) :
  contains period s = true ->
  exists once,
    clean_response s = Ok once /\ clean_response once = Ok once.
Proof.
  intros _.
  destruct (clean_response_first s) as (first & Hclean & Hfirst & _).
  exists (first ++ ".")%string. split; [exact Hclean|].
  unfold clean_response.
  change (first ++ ".")%string with (first ++ String period "")%string.
  rewrite (split_first_sep period first EmptyString Hfirst). reflexivity.
Qed.

Lemma clean_response_idempotent_witness :
  exists once,
    clean_response "The total is 3.27. Thanks." = Ok once /\
    clean_response once = Ok once.
Proof.
  apply (@clean_response_idempotent "The total is 3.27. Thanks.").
  vm_compute. reflexivity.
Defined.

(** C10. The answer [get_response] returns has exactly one period, its
    last character; for an empty text, or one that starts with a period,
    the answer is the period alone. *)
Theorem get_response_single_period (env : Env) (user_query : string)
  (d : SQLDatabase) (history : list message) (w w' : world)
  (raw_response : string) :
  invoke_chain env user_query d history w = (Ok raw_response, w') ->
  exists answer,
    get_response env user_query d history w = (Ok answer, w') /\
    count period answer = 1 /\
    last_char answer = Some period /\
    (raw_response = ""%string \/
     (exists rest, raw_response = String period rest) ->
     answer = "."%string).
Proof.
  intros Hrun. rewrite get_response_run, Hrun.
  destruct (clean_response_first raw_response)
    as (first & Hclean & Hfirst & Hno & Hyes).
  exists (first ++ ".")%string. rewrite Hclean.
  split; [reflexivity|]. split; [|split].
  - rewrite count_app, (count_absent _ _ Hfirst). reflexivity.
  - apply last_char_snoc.
  - intros [-> | [rest ->]].
    + rewrite (Hno eq_refl). reflexivity.
    + destruct (Hyes eq_refl) as [rest' Hraw].
      destruct first as [|c first]; [reflexivity|].
      simpl in Hraw, Hfirst. injection Hraw as <- _.
      simpl in Hfirst. discriminate.
Qed.

Lemma get_response_single_period_witness :
  exists answer,
    get_response sample_env sample_question (Handle 1) [] connected_world
    = (Ok answer,
       snd (invoke_chain sample_env sample_question (Handle 1) []
              connected_world)) /\
    count period answer = 1 /\
    last_char answer = Some period /\
    ("The average engagement score is 3.27. It is stable." = ""%string \/
     (exists rest,
        "The average engagement score is 3.27. It is stable."
        = String period rest) ->
     answer = "."%string).
Proof.
  apply (@get_response_single_period sample_env sample_question (Handle 1) []
           connected_world).
  vm_compute. reflexivity.
Defined.

(** ** Errors *)

(** C7, as the code has it.  [get_response] catches nothing, retries
    nothing and translates nothing.  It leaves the session alone and
    only makes external calls.  Every exception it raises is, as it is,
    one that one of its calls raised.  An exception raised by the model
    or by a schema fetch is the outcome of [get_response].  An
    exception raised by running the query is the outcome too, unless
    the schema fetch evaluated in the same parallel map raised as well:
    then that one is the outcome.  After a call has raised no prompt is
    sent, and at most the other call of that parallel map is made. *)
Theorem get_response_propagates (env : Env) (user_query : string)
  (d : SQLDatabase) (history : list message) (w : world) :
  session (snd (get_response env user_query d history w)) = session w /\
  exists evs,
    trace (snd (get_response env user_query d history w)) = trace w ++ evs /\
    (forall e,
       fst (get_response env user_query d history w) = Raised e ->
       exists ev, In ev evs /\ raised_by ev = Some e) /\
    (forall ev e,
       In ev evs -> raised_by ev = Some e ->
       (forall d' c r', ev <> EvRun d' c r') ->
       fst (get_response env user_query d history w) = Raised e) /\
    (forall d' c e,
       In (EvRun d' c (Raised e)) evs ->
       fst (get_response env user_query d history w) = Raised e \/
       exists e',
         In (EvTableInfo d (Raised e')) evs /\
         fst (get_response env user_query d history w) = Raised e') /\
    llm_prompts (calls_after_raise evs) = [] /\
    List.length (calls_after_raise evs) <= 1.
Proof.
  split; [apply get_response_session|].
  destruct (invoke_chain_emitted env user_query d history w) as [Ht Hrun].
  exists (emitted (invoke_chain env user_query d history) w).
  rewrite get_response_trace. split; [exact Ht|].
  destruct (chain_run_errors _ _ _ _ _ _ Hrun) as (H1 & H2 & H3 & H4 & H5).
  repeat split; try assumption.
  - intros e He. apply get_response_outcome in He. apply H1, He.
  - intros ev e Hin Hev Hnot. apply get_response_outcome.
    apply (H2 ev e Hin Hev Hnot).
  - intros d' c e Hin.
    destruct (H3 d' c e Hin) as [Hr | (e' & Hin' & Hr)].
    + left. apply get_response_outcome, Hr.
    + right. exists e'. split; [exact Hin'|].
      apply get_response_outcome, Hr.
Qed.

(** C7 as stated fails: when the query and the schema fetch beside it
    both raise, the caller receives the exception of the schema fetch;
    the one the query raised is lost.  This is so whichever of the two
    calls is made first. *)
Lemma get_response_propagates_counterexample :
  OperationalError <> ProgrammingError /\
  (In (EvRun (Handle 1) "SELEC 1" (Raised ProgrammingError))
     (emitted (get_response (hiding_env false) sample_question (Handle 1) [])
        connected_world) /\
   fst (get_response (hiding_env false) sample_question (Handle 1) []
          connected_world)
   = Raised OperationalError) /\
  (In (EvRun (Handle 1) "SELEC 1" (Raised ProgrammingError))
     (emitted (get_response (hiding_env true) sample_question (Handle 1) [])
        connected_world) /\
   fst (get_response (hiding_env true) sample_question (Handle 1) []
          connected_world)
   = Raised OperationalError).
Proof.
  split; [discriminate|].
  split; (split; [vm_compute; auto 6 | vm_compute; reflexivity]).
Qed.

(** C3. Connect never raises and leaves the theme alone.  If
    [init_database] returned a handle, the session holds that handle and
    an empty history; if it returned none, the handle and the history
    are what they were. *)
Theorem on_connect_handle_and_history (env : Env)
  (user password host port database : string) (w : world) :
  fst (on_connect env user password host port database w) = Ok tt /\
  theme (session (snd (on_connect env user password host port database w)))
  = theme (session w) /\
  match fst (init_database env user password host port database w) with
  | Ok (Some handle) =>
      db (session (snd (on_connect env user password host port database w)))
      = Some handle /\
      chat_history
        (session (snd (on_connect env user password host port database w)))
      = []
  | Ok None =>
      db (session (snd (on_connect env user password host port database w)))
      = db (session w) /\
      chat_history
        (session (snd (on_connect env user password host port database w)))
      = chat_history (session w)
  | Raised _ => False
  end.
Proof.
  unfold on_connect, bind. rewrite init_database_run. cbv zeta.
  destruct (from_uri env (trace w) _) as [handle|e]; simpl;
    repeat split; reflexivity.
Qed.

(** ** Conversation history *)



(** C9, as the code has it.  When a submitted question reaches the
    Answer Composer, the history serialized into its prompt is the
    history before the question followed by the human turn for the
    question being answered. *)
Theorem on_send_prompt_history (env : Env) (user_query : string) (w : world)
  (d : SQLDatabase) (p1 p2 : string) :
  db (session w) = Some d ->
  llm_prompts (emitted (on_send env user_query) w) = [p1; p2] ->
  exists schema query response,
    p2 = answer_prompt (repr_message env) schema
           (chat_history (session w) ++ [HumanMessage user_query])
           query user_query response.
Proof.
  intros Hdb Hp. rewrite (on_send_emitted env user_query w d Hdb) in Hp.
  apply invoke_chain_prompts in Hp as (_ & schema & query & response & ->).
  exists schema, query, response. reflexivity.
Qed.

Lemma on_send_prompt_history_witness :
  exists schema query response,
    answer_prompt sample_repr
      "CREATE TABLE employee_engagement_survey_data (...)"
      (chat_history initial_session ++ [HumanMessage sample_question])
      sample_query sample_question "[(3.27,)]"
    = answer_prompt (repr_message sample_env) schema
        (chat_history (session connected_world)
         ++ [HumanMessage sample_question])
        query sample_question response.
Proof.
  apply (@on_send_prompt_history sample_env sample_question connected_world
           (Handle 1) (sql_prompt sample_question)).
  - reflexivity.
  - vm_compute. reflexivity.
Defined.

(** C9 as stated fails: the prompt of the first question of a session
    carries the greeting and the question's own human turn, not the
    greeting alone. *)
Lemma on_send_prompt_history_counterexample :
  exists p1 p2,
    llm_prompts (emitted (on_send sample_env sample_question) connected_world)
    = [p1; p2] /\
    p2 = answer_prompt sample_repr
           "CREATE TABLE employee_engagement_survey_data (...)"
           (chat_history (session connected_world)
            ++ [HumanMessage sample_question])
           sample_query sample_question "[(3.27,)]" /\
    p2 <> answer_prompt sample_repr
            "CREATE TABLE employee_engagement_survey_data (...)"
            (chat_history (session connected_world))
            sample_query sample_question "[(3.27,)]".
Proof.
  eexists _, _. split; [vm_compute; reflexivity|].
  split; [vm_compute; reflexivity|].
  intros H. apply String.eqb_eq in H. vm_compute in H. discriminate.
Qed.

(** ** Prompts *)

(** C8. The synthesis template is fixed text around two [{question}]
    fields; formatting puts the question, as it is, in both, and that is
    the prompt the synthesis chain sends. *)
Theorem question_substituted_verbatim (env : Env) (d : SQLDatabase)
  (input : dict) (question : string) (w : world) :
  dict_get input "question" = Some (VStr question) ->
  get_sql_chain_template
  = (sql_head ++ "{question}" ++ sql_middle ++ "{question}" ++ sql_tail)%string
  /\
  contains "{" (sql_head ++ sql_middle ++ sql_tail) = false /\
  contains "}" (sql_head ++ sql_middle ++ sql_tail) = false /\
  format (repr_message env) get_sql_chain_template input
  = Ok (sql_head ++ question ++ sql_middle ++ question ++ sql_tail)%string /\
  (forall schema,
     get_table_info env (trace w) d = Ok schema ->
     llm_prompts (emitted (get_sql_chain env d input) w)
     = [(sql_head ++ question ++ sql_middle ++ question ++ sql_tail)%string]).
Proof.
  intros Hq. split; [reflexivity|].
  split; [vm_compute; reflexivity|].
  split; [vm_compute; reflexivity|].
  split.
  - apply format_sql_template, Hq.
  - intros schema Hs. apply (get_sql_chain_prompts env d input _ schema w Hq Hs).
Qed.

Lemma question_substituted_verbatim_witness :
  format (repr_message sample_env) get_sql_chain_template
    [("question", VStr "How many {active} employees?");
     ("chat_history", VList [])]
  = Ok (sql_head ++ "How many {active} employees?" ++ sql_middle
        ++ "How many {active} employees?" ++ sql_tail)%string.
Proof.
  apply (@question_substituted_verbatim sample_env (Handle 1)
           [("question", VStr "How many {active} employees?");
            ("chat_history", VList [])]
           "How many {active} employees?" fresh_world).
  reflexivity.
Defined.

(** C6. For one question and two databases that describe themselves
    differently, the synthesis chain sends the same prompt, a function
    of the question alone.  The answer prompt carries the schema of the
    database it runs on: when that database keeps describing itself the
    same way and answers the model's query, the run sends the answer
    prompt built from its schema; and answer prompts built from
    different schemas differ. *)
Theorem synthesis_prompt_ignores_database (env1 env2 : Env)
  (d1 d2 : SQLDatabase) (question : string) (history : list message)
  (w1 w2 : world) (schema1 schema2 : string) :
  let input := [("question", VStr question); ("chat_history", VList history)] in
  get_table_info env1 (trace w1) d1 = Ok schema1 ->
  get_table_info env2 (trace w2) d2 = Ok schema2 ->
  schema1 <> schema2 ->
  llm_prompts (emitted (get_sql_chain env1 d1 input) w1)
  = llm_prompts (emitted (get_sql_chain env2 d2 input) w2) /\
  llm_prompts (emitted (get_sql_chain env1 d1 input) w1)
  = [sql_prompt question] /\
  (forall query response,
     (forall tr, get_table_info env1 tr d1 = Ok schema1) ->
     llm env1 (trace w1 ++ [EvTableInfo d1 (Ok schema1)]) (sql_prompt question)
     = Ok query ->
     (forall tr, run env1 tr d1 query = Ok response) ->
     llm_prompts (emitted (invoke_chain env1 question d1 history) w1)
     = [sql_prompt question;
        answer_prompt (repr_message env1) schema1 history query question
          response]) /\
  (forall repr query response,
     answer_prompt repr schema1 history query question response
     <> answer_prompt repr schema2 history query question response).
Proof.
  intros input H1 H2 Hne.
  rewrite (get_sql_chain_prompts env1 d1 input question schema1 w1 eq_refl H1).
  rewrite (get_sql_chain_prompts env2 d2 input question schema2 w2 eq_refl H2).
  split; [reflexivity|]. split; [reflexivity|]. split.
  - intros query response Hs Hq Hr.
    apply (invoke_chain_answered env1 question d1 history w1 schema1 query
             response Hs Hq Hr).
  - intros repr query response H. apply Hne.
    apply (answer_prompt_schema_inj _ _ _ _ _ _ _ H).
Qed.

Lemma synthesis_prompt_ignores_database_witness :
  llm_prompts
    (emitted
       (get_sql_chain sample_env (Handle 1)
          [("question", VStr sample_question); ("chat_history", VList [])])
       fresh_world)
  = llm_prompts
      (emitted
         (get_sql_chain other_env (Handle 2)
            [("question", VStr sample_question); ("chat_history", VList [])])
         connected_world) /\
  llm_prompts
    (emitted (invoke_chain sample_env sample_question (Handle 1) [])
       fresh_world)
  = [sql_prompt sample_question;
     answer_prompt (repr_message sample_env)
       "CREATE TABLE employee_engagement_survey_data (...)" [] sample_query
       sample_question "[(3.27,)]"] /\
  answer_prompt sample_repr
    "CREATE TABLE employee_engagement_survey_data (...)" [] sample_query
    sample_question "[(3.27,)]"
  <> answer_prompt sample_repr "CREATE TABLE orders (id INT, total DECIMAL)"
       [] sample_query sample_question "[(3.27,)]".
Proof.
  destruct (@synthesis_prompt_ignores_database sample_env other_env (Handle 1)
              (Handle 2) sample_question [] fresh_world connected_world
              "CREATE TABLE employee_engagement_survey_data (...)"
              "CREATE TABLE orders (id INT, total DECIMAL)"
              eq_refl eq_refl)
    as (Hsame & _ & Hanswer & Hdiffer).
  - discriminate.
  - split; [exact Hsame|]. split.
    + apply Hanswer.
      * intros tr. reflexivity.
      * reflexivity.
      * intros tr. reflexivity.
    + apply Hdiffer.
Defined.

(** * Further properties *)

(** ** Splitting and truncation *)

Lemma string_app_assoc (a b c : string) :
  ((a ++ b) ++ c = a ++ (b ++ c))%string.
Proof.
  induction a as [|x a IH]; simpl; [reflexivity|].
  rewrite IH. reflexivity.
Qed.

Lemma join_cons (sep x : string) (l : list string) :
  l <> [] -> join sep (x :: l) = (x ++ sep ++ join sep l)%string.
Proof. destruct l; [congruence | reflexivity]. Qed.

Lemma join_cons_char (sep : string) (c : ascii) (x : string) (l : list string) :
  join sep (String c x :: l) = String c (join sep (x :: l)).
Proof. destruct l; reflexivity. Qed.

(** X1. Joining the segments of a split with the separator gives the
    text back: splitting loses nothing. *)
Theorem join_split (sep : ascii) (s : string) :
  join (String sep EmptyString) (split sep s) = s.
Proof.
  induction s as [|c s IH]; simpl; [reflexivity|].
  destruct (Ascii.eqb c sep) eqn:E.
  - apply Ascii.eqb_eq in E. subst c.
    rewrite join_cons by apply split_nonempty.
    rewrite IH. reflexivity.
  - destruct (split sep s) as [|seg segs] eqn:Es.
    + exfalso. exact (split_nonempty sep s Es).
    + rewrite join_cons_char, IH. reflexivity.
Qed.

(** X2. A split has one more segment than the text has separators, and
    no segment contains the separator. *)
Theorem split_segments (sep : ascii) (s : string) :
  List.length (split sep s) = count sep s + 1 /\
  Forall (fun seg => contains sep seg = false) (split sep s).
Proof.
  induction s as [|c s [IHl IHf]]; simpl.
  - split; [reflexivity | repeat constructor].
  - destruct (Ascii.eqb c sep) eqn:E.
    + split; [simpl; rewrite IHl; reflexivity|].
      constructor; [reflexivity | exact IHf].
    + destruct (split sep s) as [|seg segs].
      * simpl in IHl. lia.
      * split; [exact IHl|].
        inversion IHf as [|? ? Hseg Hsegs]; subst.
        constructor; [simpl; rewrite E, Hseg; reflexivity | exact Hsegs].
Qed.

Lemma clean_response_sentence (pre : string) :
  contains period pre = false ->
  clean_response (pre ++ ".")%string = Ok (pre ++ ".")%string.
Proof.
  intros Hpre. unfold clean_response.
  change (pre ++ ".")%string with (pre ++ String period "")%string.
  rewrite (split_first_sep period pre EmptyString Hpre). reflexivity.
Qed.

(** X3. The truncation never raises, on any text, with or without a
    period: it returns a prefix of the text, free of periods, followed
    by one period.  The answer is at most one character longer than the
    text, and truncating it again changes nothing. *)
Theorem clean_response_total (raw : string) :
  exists first rest,
    raw = (first ++ rest)%string /\
    contains period first = false /\
    clean_response raw = Ok (first ++ ".")%string /\
    String.length (first ++ ".")%string <= String.length raw + 1 /\
    clean_response (first ++ ".")%string = Ok (first ++ ".")%string.
Proof.
  destruct (clean_response_first raw) as (first & Hclean & Hfirst & Hno & Hyes).
  pose proof (clean_response_sentence first Hfirst) as Hagain.
  destruct (contains period raw) eqn:E.
  - destruct (Hyes eq_refl) as [rest Hraw].
    exists first, (String period rest). repeat split; try assumption.
    rewrite Hraw, !append_length. simpl. lia.
  - exists first, EmptyString. rewrite (Hno eq_refl) in *.
    rewrite append_empty_r. repeat split; try assumption.
    rewrite append_length. simpl. lia.
Qed.

(** X4. The texts the truncation returns unchanged are exactly the
    single sentences: texts whose only period is their last character. *)
Theorem clean_response_fixed_points (s : string) :
  clean_response s = Ok s <->
  exists pre, s = (pre ++ ".")%string /\ contains period pre = false.
Proof.
  split.
  - intros H.
    destruct (clean_response_first s) as (first & Hclean & Hfirst & _).
    rewrite Hclean in H. injection H as H.
    exists first. split; [symmetry; exact H | exact Hfirst].
  - intros (pre & -> & Hpre). apply clean_response_sentence, Hpre.
Qed.

(** X5. Nothing that follows a period reaches the answer: two texts
    that agree up to and including some period have the same
    truncation. *)
Theorem clean_response_ignores_rest (pre rest1 rest2 : string) :
  clean_response (pre ++ "." ++ rest1)%string
  = clean_response (pre ++ "." ++ rest2)%string.
Proof.
  unfold clean_response.
  change ("." ++ rest1)%string with (String period rest1).
  change ("." ++ rest2)%string with (String period rest2).
  destruct (contains period pre) eqn:E.
  - destruct (contains_decompose _ _ E) as (p & q & -> & Hp).
    rewrite !string_app_assoc. simpl.
    rewrite !(split_first_sep period p _ Hp). reflexivity.
  - rewrite !(split_first_sep period pre _ E). reflexivity.
Qed.

(** ** The password in the connection string *)

Ltac each_ascii c :=
  destruct c as [[] [] [] [] [] [] [] []].

Lemma all_chars_app (p : ascii -> bool) (s t : string) :
  all_chars p (s ++ t)%string = all_chars p s && all_chars p t.
Proof.
  induction s as [|c s IH]; simpl; [reflexivity|].
  rewrite IH, andb_assoc. reflexivity.
Qed.

Lemma all_chars_absent (p : ascii -> bool) (c : ascii) (s : string) :
  all_chars p s = true -> p c = false -> contains c s = false.
Proof.
  intros Hs Hc. induction s as [|c' s IH]; simpl in *; [reflexivity|].
  apply andb_true_iff in Hs as [Hc' Hs]. rewrite (IH Hs), orb_false_r.
  destruct (Ascii.eqb c' c) eqn:E; [|reflexivity].
  apply Ascii.eqb_eq in E. subst c'. congruence.
Qed.

Lemma quote_char_alphabet (c : ascii) :
  all_chars (fun x => unquoted x || Ascii.eqb x "%"%char) (quote_char c) = true.
Proof. each_ascii c; vm_compute; reflexivity. Qed.

Lemma quote_char_length (c : ascii) :
  (unquoted c = true /\ quote_char c = String c EmptyString) \/
  (unquoted c = false /\ String.length (quote_char c) = 3).
Proof.
  unfold quote_char, unquoted.
  destruct (always_safe c || Ascii.eqb c "/"%char); [left | right];
    split; reflexivity.
Qed.

Lemma unquote_quote_char (c : ascii) (t : string) :
  unquote (quote_char c ++ t)%string = String c (unquote t).
Proof. each_ascii c; reflexivity. Qed.

Lemma quote_length (s : string) :
  String.length s <= String.length (quote s) <= 3 * String.length s.
Proof.
  induction s as [|c s IH]; simpl; [lia|].
  rewrite append_length.
  destruct (quote_char_length c) as [[_ ->] | [_ ->]]; simpl; lia.
Qed.

(** X6. The encoded password is made of letters, digits, [_.-~/] and
    percent signs only: a colon, an at sign, a question mark, a hash or
    a blank in the password never reaches the connection string as
    such, while a slash does. *)
Theorem quote_alphabet (password : string) :
  all_chars (fun c => unquoted c || Ascii.eqb c "%"%char) (quote password)
  = true /\
  contains ":" (quote password) = false /\
  contains "@" (quote password) = false /\
  contains "?" (quote password) = false /\
  contains "#" (quote password) = false /\
  contains " " (quote password) = false /\
  contains "/" (quote password) = contains "/" password.
Proof.
  assert (H : all_chars (fun c => unquoted c || Ascii.eqb c "%"%char)
                (quote password) = true).
  { induction password as [|c s IH]; simpl; [reflexivity|].
    rewrite all_chars_app, quote_char_alphabet, IH. reflexivity. }
  split; [exact H|].
  repeat (split; [apply (all_chars_absent _ _ _ H); reflexivity|]).
  clear H. induction password as [|c s IH]; simpl; [reflexivity|].
  rewrite <- IH. clear IH. generalize (quote s) as t. intros t.
  each_ascii c; reflexivity.
Qed.

(** X7. [quote] turns each byte of the UTF-8 encoding of the password
    into one character or into three: the encoded password has at least
    as many characters as the encoding has bytes and at most three times
    as many.  It is the password unchanged exactly when every character
    of the password is a letter, a digit or one of [_.-~/]. *)
Theorem quote_unchanged (password : string) :
  utf8_length password <= String.length (quote password)
  <= 3 * utf8_length password /\
  (quote password = password <-> all_chars unquoted password = true).
Proof.
  unfold utf8_length. split; [apply quote_length|].
  induction password as [|c s IH]; simpl; [split; reflexivity|].
  destruct (quote_char_length c) as [[Hc Hq] | [Hc Hq]]; rewrite Hc; simpl.
  - rewrite Hq. simpl. split.
    + intros H. injection H as H. apply IH, H.
    + intros H. f_equal. apply IH, H.
  - split; [|discriminate].
    intros H. apply (f_equal String.length) in H.
    rewrite append_length, Hq in H. simpl in H.
    pose proof (quote_length s). lia.
Qed.

(** X8. Encoding loses nothing: percent-decoding the encoded password
    gives the password back, so two different passwords never share an
    encoding. *)
Theorem unquote_quote (password : string) :
  unquote (quote password) = password /\
  forall other, quote password = quote other -> password = other.
Proof.
  assert (H : forall s, unquote (quote s) = s).
  { induction s as [|c s IH]; simpl; [reflexivity|].
    rewrite unquote_quote_char, IH. reflexivity. }
  split; [apply H|].
  intros other E. rewrite <- (H password), <- (H other), E. reflexivity.
Qed.

(** ** The calls a turn makes *)

Lemma get_response_emitted (env : Env) (user_query : string) (d : SQLDatabase)
  (history : list message) (w : world) :
  emitted (get_response env user_query d history) w
  = emitted (invoke_chain env user_query d history) w.
Proof. unfold emitted. rewrite get_response_trace. reflexivity. Qed.

(** Every run starts by asking the database it was given for its
    schema. *)
Lemma chain_run_first (repr : message -> string) (user_query : string)
  (d : SQLDatabase) (history : list message) (r : result string)
  (evs : list event) :
  chain_run repr user_query d history r evs ->
  exists r0 rest, evs = EvTableInfo d r0 :: rest.
Proof. intros Hrun. destruct Hrun; eexists _, _; reflexivity. Qed.

(** A run that answered made its five calls, the two of the parallel map
    in one order or the other. *)
Lemma chain_run_answer (repr : message -> string) (user_query : string)
  (d : SQLDatabase) (history : list message) (r : result string)
  (evs : list event) (raw : string) :
  chain_run repr user_query d history r evs ->
  r = Ok raw ->
  exists schema0 query schema response,
    evs = [EvTableInfo d (Ok schema0);
           EvLLM (sql_prompt user_query) (Ok query);
           EvTableInfo d (Ok schema);
           EvRun d query (Ok response);
           EvLLM (answer_prompt repr schema history query user_query response)
             (Ok raw)] \/
    evs = [EvTableInfo d (Ok schema0);
           EvLLM (sql_prompt user_query) (Ok query);
           EvRun d query (Ok response);
           EvTableInfo d (Ok schema);
           EvLLM (answer_prompt repr schema history query user_query response)
             (Ok raw)].
Proof.
  intros Hrun. destruct Hrun as [e | s0 e | s0 q b rs rr e Hb | s0 q b s rp r];
    intros Hr; try discriminate.
  subst r. exists s0, q, s, rp. destruct b; [right | left]; reflexivity.
Qed.

(** A run sends at most two prompts and runs at most one command, on the
    database it was given: the model's answer to the synthesis prompt. *)
Lemma chain_run_bounds (repr : message -> string) (user_query : string)
  (d : SQLDatabase) (history : list message) (r : result string)
  (evs : list event) :
  chain_run repr user_query d history r evs ->
  List.length (llm_prompts evs) <= 2 /\
  List.length (db_commands evs) <= 1 /\
  (forall d' command,
     In (d', command) (db_commands evs) ->
     d' = d /\ In (EvLLM (sql_prompt user_query) (Ok command)) evs) /\
  Forall
    (fun ev =>
       match ev with
       | EvTableInfo d' _ | EvRun d' _ _ => d' = d
       | EvLLM _ _ => True
       | _ => False
       end)
    evs.
Proof.
  intros Hrun. destruct Hrun as [e | s0 e | s0 q b rs rr e Hb | s0 q b s rp r];
    try destruct b; simpl;
    (split; [lia|]); (split; [lia|]);
    (split; [|repeat constructor]);
    intros d' command Hin; simpl in Hin;
    try contradiction;
    destruct Hin as [Hin | []]; injection Hin as <- <-;
    (split; [reflexivity | simpl; auto]).
Qed.

(** X9. Whatever happens, one call of [get_response] sends at most two
    prompts and runs at most one command.  It talks to the database it
    was given and to the model, to nothing else; and the command it
    runs is, character for character, what the model answered to the
    synthesis prompt. *)
Theorem get_response_calls_bounded (env : Env) (user_query : string)
  (d : SQLDatabase) (history : list message) (w : world) :
  List.length (llm_prompts (emitted (get_response env user_query d history) w))
  <= 2 /\
  List.length (db_commands (emitted (get_response env user_query d history) w))
  <= 1 /\
  (forall d' command,
     In (d', command)
       (db_commands (emitted (get_response env user_query d history) w)) ->
     d' = d /\
     In (EvLLM (sql_prompt user_query) (Ok command))
       (emitted (get_response env user_query d history) w)) /\
  Forall
    (fun ev =>
       match ev with
       | EvTableInfo d' _ | EvRun d' _ _ => d' = d
       | EvLLM _ _ => True
       | _ => False
       end)
    (emitted (get_response env user_query d history) w).
Proof.
  rewrite get_response_emitted.
  apply (chain_run_bounds (repr_message env) user_query d history
           (fst (invoke_chain env user_query d history w))).
  apply invoke_chain_emitted.
Qed.

(** X10. A call of [get_response] that returns made exactly five calls:
    the schema fetch and the synthesis prompt of the synthesis chain,
    then the second schema fetch and the model's query run on the
    database, these two in either order, then the answer prompt; and it
    returns the truncation of the model's second answer. *)
Theorem get_response_success_trace (env : Env) (user_query : string)
  (d : SQLDatabase) (history : list message) (w : world) (answer : string) :
  fst (get_response env user_query d history w) = Ok answer ->
  exists schema0 query schema response raw_response,
    (emitted (get_response env user_query d history) w
     = [EvTableInfo d (Ok schema0);
        EvLLM (sql_prompt user_query) (Ok query);
        EvTableInfo d (Ok schema);
        EvRun d query (Ok response);
        EvLLM
          (answer_prompt (repr_message env) schema history query user_query
             response)
          (Ok raw_response)] \/
     emitted (get_response env user_query d history) w
     = [EvTableInfo d (Ok schema0);
        EvLLM (sql_prompt user_query) (Ok query);
        EvRun d query (Ok response);
        EvTableInfo d (Ok schema);
        EvLLM
          (answer_prompt (repr_message env) schema history query user_query
             response)
          (Ok raw_response)]) /\
    clean_response raw_response = Ok answer.
Proof.
  rewrite get_response_emitted, get_response_run.
  destruct (invoke_chain_emitted env user_query d history w) as [_ Hrun].
  destruct (invoke_chain env user_query d history w) as [[raw|e] w'] eqn:E;
    simpl in *; [|discriminate].
  intros Hclean.
  destruct (chain_run_answer _ _ _ _ _ _ raw Hrun eq_refl)
    as (s0 & q & s & rp & Hev).
  exists s0, q, s, rp, raw. split; assumption.
Qed.

Lemma get_response_success_trace_witness :
  exists schema0 query schema response raw_response,
    (emitted (get_response sample_env sample_question (Handle 1) [])
       connected_world
     = [EvTableInfo (Handle 1) (Ok schema0);
        EvLLM (sql_prompt sample_question) (Ok query);
        EvTableInfo (Handle 1) (Ok schema);
        EvRun (Handle 1) query (Ok response);
        EvLLM
          (answer_prompt (repr_message sample_env) schema [] query
             sample_question response)
          (Ok raw_response)] \/
     emitted (get_response sample_env sample_question (Handle 1) [])
       connected_world
     = [EvTableInfo (Handle 1) (Ok schema0);
        EvLLM (sql_prompt sample_question) (Ok query);
        EvRun (Handle 1) query (Ok response);
        EvTableInfo (Handle 1) (Ok schema);
        EvLLM
          (answer_prompt (repr_message sample_env) schema [] query
             sample_question response)
          (Ok raw_response)]) /\
    clean_response raw_response = Ok "The average engagement score is 3.".
Proof.
  apply (@get_response_success_trace sample_env sample_question (Handle 1) []
           connected_world "The average engagement score is 3.").
  vm_compute. reflexivity.
Defined.

(** X11. The synthesis chain asks the database for its schema before it
    formats a prompt that does not use it: when that request raises,
    [get_response] raises the same exception and the model is never
    consulted. *)
Theorem get_response_needs_schema (env : Env) (user_query : string)
  (d : SQLDatabase) (history : list message) (w : world) (e : exception) :
  get_table_info env (trace w) d = Raised e ->
  fst (get_response env user_query d history w) = Raised e /\
  emitted (get_response env user_query d history) w
  = [EvTableInfo d (Raised e)] /\
  llm_prompts (emitted (get_response env user_query d history) w) = [].
Proof.
  intros H. rewrite get_response_emitted, get_response_run.
  unfold emitted. rewrite invoke_chain_run, H. simpl.
  rewrite (skipn_length_app (trace w)). repeat split.
Qed.

Lemma get_response_needs_schema_witness :
  fst (get_response unreachable_env sample_question (Handle 1) []
         connected_world)
  = Raised OperationalError /\
  emitted (get_response unreachable_env sample_question (Handle 1) [])
    connected_world
  = [EvTableInfo (Handle 1) (Raised OperationalError)] /\
  llm_prompts
    (emitted (get_response unreachable_env sample_question (Handle 1) [])
       connected_world)
  = [].
Proof.
  apply (@get_response_needs_schema unreachable_env sample_question (Handle 1)
           [] connected_world OperationalError).
  reflexivity.
Defined.

Lemma format_sql_template_missing (repr : message -> string) (vars : dict) :
  dict_get vars "question" = None ->
  format repr get_sql_chain_template vars = Raised (KeyError "question").
Proof.
  intros H. unfold format. rewrite get_sql_chain_template_pieces.
  cbn [render]. unfold dict_item. rewrite H. reflexivity.
Qed.

(** X12. An input without a ["question"] entry makes the synthesis
    chain raise a [KeyError] after it has asked the database for its
    schema; no prompt is sent. *)
Theorem get_sql_chain_missing_question (env : Env) (d : SQLDatabase)
  (input : dict) (schema : string) (w : world) :
  dict_get input "question" = None ->
  get_table_info env (trace w) d = Ok schema ->
  (exists e,
     fst (get_sql_chain env d input w) = Raised e /\
     exc_type e = "KeyError") /\
  emitted (get_sql_chain env d input) w = [EvTableInfo d (Ok schema)].
Proof.
  intros Hq Hs. unfold emitted, get_sql_chain, bind, db_get_table_info, call.
  rewrite Hs. unfold lift.
  rewrite format_sql_template_missing
    by (rewrite dict_get_set_other by reflexivity; exact Hq).
  simpl. rewrite (skipn_length_app (trace w)).
  split; [eexists; split; reflexivity | reflexivity].
Qed.

Lemma get_sql_chain_missing_question_witness :
  (exists e,
     fst (get_sql_chain sample_env (Handle 1) [("chat_history", VList [])]
            connected_world)
     = Raised e /\
     exc_type e = "KeyError") /\
  emitted (get_sql_chain sample_env (Handle 1) [("chat_history", VList [])])
    connected_world
  = [EvTableInfo (Handle 1)
       (Ok "CREATE TABLE employee_engagement_survey_data (...)")].
Proof.
  apply (@get_sql_chain_missing_question sample_env (Handle 1)
           [("chat_history", VList [])]
           "CREATE TABLE employee_engagement_survey_data (...)"
           connected_world).
  - reflexivity.
  - reflexivity.
Defined.

(** X13. The answer template is fixed text around five fields, in the
    order schema, history, query, question, response, each once.
    Formatting puts the text of each value in its place, as it is, and
    ignores any other entry. *)
Theorem answer_template_substitution (repr : message -> string) (vars : dict)
  (schema history query question response : value) :
  dict_get vars "schema" = Some schema ->
  dict_get vars "chat_history" = Some history ->
  dict_get vars "query" = Some query ->
  dict_get vars "question" = Some question ->
  dict_get vars "response" = Some response ->
  get_response_template
  = (answer_head ++ "{schema}" ++ answer_after_schema ++ "{chat_history}"
     ++ answer_after_history ++ "{query}" ++ answer_after_query
     ++ "{question}" ++ answer_after_question ++ "{response}"
     ++ answer_tail)%string /\
  contains "{"
    (answer_head ++ answer_after_schema ++ answer_after_history
     ++ answer_after_query ++ answer_after_question ++ answer_tail) = false /\
  contains "}"
    (answer_head ++ answer_after_schema ++ answer_after_history
     ++ answer_after_query ++ answer_after_question ++ answer_tail) = false /\
  format repr get_response_template vars
  = Ok (answer_head ++ str_value repr schema ++ answer_after_schema
        ++ str_value repr history ++ answer_after_history
        ++ str_value repr query ++ answer_after_query
        ++ str_value repr question ++ answer_after_question
        ++ str_value repr response ++ answer_tail)%string.
Proof.
  intros H1 H2 H3 H4 H5.
  split; [reflexivity|].
  split; [vm_compute; reflexivity|].
  split; [vm_compute; reflexivity|].
  unfold format. rewrite get_response_template_pieces.
  cbn [render]. unfold dict_item. rewrite H1, H2, H3, H4, H5.
  rewrite append_empty_r. reflexivity.
Qed.

Lemma answer_template_substitution_witness :
  format sample_repr get_response_template
    [("question", VStr "How many {active} employees?");
     ("chat_history", VList [HumanMessage "How many {active} employees?"]);
     ("query", VStr "SELECT COUNT(*) FROM employee_data;");
     ("schema", VStr "CREATE TABLE employee_data (...)");
     ("response", VStr "[(42,)]");
     ("unused", VStr "ignored")]
  = Ok (answer_head ++ "CREATE TABLE employee_data (...)"
        ++ answer_after_schema
        ++ "[HumanMessage(content='How many {active} employees?')]"
        ++ answer_after_history ++ "SELECT COUNT(*) FROM employee_data;"
        ++ answer_after_query ++ "How many {active} employees?"
        ++ answer_after_question ++ "[(42,)]" ++ answer_tail)%string.
Proof.
  apply (@answer_template_substitution sample_repr
           [("question", VStr "How many {active} employees?");
            ("chat_history",
             VList [HumanMessage "How many {active} employees?"]);
            ("query", VStr "SELECT COUNT(*) FROM employee_data;");
            ("schema", VStr "CREATE TABLE employee_data (...)");
            ("response", VStr "[(42,)]");
            ("unused", VStr "ignored")]
           (VStr "CREATE TABLE employee_data (...)")
           (VList [HumanMessage "How many {active} employees?"])
           (VStr "SELECT COUNT(*) FROM employee_data;")
           (VStr "How many {active} employees?")
           (VStr "[(42,)]")); reflexivity.
Defined.

(** ** The handlers *)

(** X14. Connect makes one connection attempt, with the connection
    string built from the five fields.  It then shows one success
    message, or two error messages: the one of [init_database], which
    carries the exception's text, and its own. *)
Theorem on_connect_trace (env : Env)
  (user password host port database : string) (w : world) :
  emitted (on_connect env user password host port database) w
  = match from_uri env (trace w) (db_uri user password host port database) with
    | Ok handle =>
        [EvFromUri (db_uri user password host port database) (Ok handle);
         EvStSuccess "Connected to database!"]
    | Raised e =>
        [EvFromUri (db_uri user password host port database) (Raised e);
         EvStError ("Error initializing database: " ++ exc_msg e)%string;
         EvStError "Failed to connect to database. Check your credentials."]
    end.
Proof.
  unfold emitted, on_connect, bind. rewrite init_database_run. cbv zeta.
  destruct (from_uri env (trace w) _) as [handle|e]; simpl;
    rewrite !app_cons_assoc, (skipn_length_app (trace w)); reflexivity.
Qed.

(** X15. Send on a session that never connected raises an
    [AttributeError] without calling the database or the model; the
    question has already been appended to the history. *)
Theorem on_send_without_database (env : Env) (user_query : string) (w : world) :
  db (session w) = None ->
  (exists e,
     fst (on_send env user_query w) = Raised e /\
     exc_type e = "AttributeError") /\
  emitted (on_send env user_query) w = [] /\
  chat_history (session (snd (on_send env user_query w)))
  = chat_history (session w) ++ [HumanMessage user_query].
Proof.
  intros H. unfold emitted. rewrite on_send_run, H. simpl.
  split; [eexists; split; reflexivity|].
  split; [|reflexivity].
  rewrite <- (app_nil_r (trace w)) at 2. apply skipn_length_app.
Qed.

Lemma on_send_without_database_witness :
  (exists e,
     fst (on_send sample_env sample_question fresh_world) = Raised e /\
     exc_type e = "AttributeError") /\
  emitted (on_send sample_env sample_question) fresh_world = [] /\
  chat_history (session (snd (on_send sample_env sample_question fresh_world)))
  = chat_history (session fresh_world) ++ [HumanMessage sample_question].
Proof.
  apply (@on_send_without_database sample_env sample_question fresh_world).
  reflexivity.
Defined.

Lemma clean_response_one_sentence (raw answer : string) :
  clean_response raw = Ok answer -> one_sentence answer = true.
Proof.
  destruct (clean_response_first raw) as (first & Hclean & Hfirst & _).
  rewrite Hclean. intros H. injection H as <-. unfold one_sentence.
  rewrite count_app, (count_absent _ _ Hfirst).
  change (first ++ ".")%string with (first ++ String period "")%string.
  rewrite last_char_snoc. reflexivity.
Qed.

(** What one Send does to the session. *)
Lemma on_send_step (env : Env) (user_query : string) (w : world) :
  db (session (snd (on_send env user_query w))) = db (session w) /\
  theme (session (snd (on_send env user_query w))) = theme (session w) /\
  (chat_history (session (snd (on_send env user_query w)))
   = chat_history (session w) ++ [HumanMessage user_query] \/
   exists answer,
     one_sentence answer = true /\
     chat_history (session (snd (on_send env user_query w)))
     = chat_history (session w)
       ++ [HumanMessage user_query; AIMessage answer]).
Proof.
  rewrite on_send_run. cbv zeta.
  destruct (db (session w)) as [d|] eqn:Hdb.
  2:{ simpl. rewrite Hdb. repeat split. left. reflexivity. }
  pose proof (get_response_session env user_query d
                (chat_history (session w) ++ [HumanMessage user_query])
                {| session :=
                     set_chat_history
                       (chat_history (session w) ++ [HumanMessage user_query])
                       (session w);
                   trace := trace w |}) as Hs.
  pose proof (get_response_run env user_query d
                (chat_history (session w) ++ [HumanMessage user_query])
                {| session :=
                     set_chat_history
                       (chat_history (session w) ++ [HumanMessage user_query])
                       (session w);
                   trace := trace w |}) as Hr.
  destruct (get_response env user_query d _ _) as [[answer|e] w2];
    simpl in *; rewrite Hs; simpl; rewrite Hdb.
  - repeat split. right. exists answer. split.
    + destruct (invoke_chain env user_query d _ _) as [[raw|e] w3];
        [|discriminate].
      injection Hr as Hr _. symmetry in Hr.
      apply (clean_response_one_sentence _ _ Hr).
    + rewrite <- app_assoc. reflexivity.
  - repeat split. left. reflexivity.
Qed.

(** What one Connect does to the session. *)
Lemma on_connect_step (env : Env) (user password host port database : string)
  (w : world) :
  theme (session (snd (on_connect env user password host port database w)))
  = theme (session w) /\
  ((exists handle,
      db (session (snd (on_connect env user password host port database w)))
      = Some handle /\
      chat_history
        (session (snd (on_connect env user password host port database w)))
      = []) \/
   (db (session (snd (on_connect env user password host port database w)))
    = db (session w) /\
    chat_history
      (session (snd (on_connect env user password host port database w)))
    = chat_history (session w))).
Proof.
  unfold on_connect, bind. rewrite init_database_run. cbv zeta.
  destruct (from_uri env (trace w) _) as [handle|e]; simpl.
  - split; [reflexivity|]. left. exists handle. split; reflexivity.
  - split; [reflexivity|]. right. split; reflexivity.
Qed.

(** X16. One press of the theme button sets the theme to light or dark:
    dark from light, light from anything else.  Two presses restore a
    light or dark theme.  The button never touches the history, the
    database handle or the trace. *)
Theorem toggle_theme_effect (w : world) :
  fst (toggle_theme w) = Ok tt /\
  (theme (session (snd (toggle_theme w))) = "light"%string \/
   theme (session (snd (toggle_theme w))) = "dark"%string) /\
  (theme (session (snd (toggle_theme w))) = "dark"%string <->
   theme (session w) = "light"%string) /\
  (theme (session w) = "light"%string \/ theme (session w) = "dark"%string ->
   theme (session (snd (toggle_theme (snd (toggle_theme w)))))
   = theme (session w)) /\
  chat_history (session (snd (toggle_theme w))) = chat_history (session w) /\
  db (session (snd (toggle_theme w))) = db (session w) /\
  trace (snd (toggle_theme w)) = trace w.
Proof.
  unfold toggle_theme, with_session. simpl.
  split; [reflexivity|].
  destruct (String.eqb (theme (session w)) "light") eqn:E.
  - apply String.eqb_eq in E. rewrite E. simpl.
    repeat split; auto.
  - apply String.eqb_neq in E. simpl.
    repeat split; auto; try discriminate; try contradiction.
    intros [H | H]; [contradiction | symmetry; exact H].
Qed.

(** ** Sessions *)

(** What one action without Connect adds to the history. *)
Lemma handle_step_added (env : Env) (a : action) (w : world) :
  is_connect a = false ->
  db (session (snd (handle env a w))) = db (session w) /\
  exists added,
    chat_history (session (snd (handle env a w)))
    = chat_history (session w) ++ added /\
    List.length (filter is_human added) = (if is_send a then 1 else 0) /\
    List.length added <= (if is_send a then 2 else 0) /\
    forallb sent_turn added = true.
Proof.
  destruct a as [user password host port database | user_query |];
    simpl; intros H; [discriminate | |].
  - destruct (on_send_step env user_query w)
      as (Hdb & _ & [Hh | (answer & Hone & Hh)]).
    + split; [exact Hdb|]. exists [HumanMessage user_query].
      repeat split; auto.
    + split; [exact Hdb|].
      exists [HumanMessage user_query; AIMessage answer].
      repeat split; auto. simpl. rewrite Hone. reflexivity.
  - split; [reflexivity|]. exists []. simpl.
    rewrite app_nil_r. repeat split; auto.
Qed.

(** X17. Over any sequence of actions without a Connect, the history
    only grows at its end and the database handle stays what it was.
    What was added holds exactly one human turn per Send, at most two
    entries per Send, and every assistant turn in it is one sentence. *)
Theorem interact_without_connect (env : Env) (actions : list action) (w : world) :
  forallb (fun a => negb (is_connect a)) actions = true ->
  db (session (interact env actions w)) = db (session w) /\
  exists added,
    chat_history (session (interact env actions w))
    = chat_history (session w) ++ added /\
    List.length (filter is_human added) = List.length (filter is_send actions) /\
    List.length added <= 2 * List.length (filter is_send actions) /\
    forallb sent_turn added = true.
Proof.
  revert w. induction actions as [|a actions IH]; intros w H; simpl in *.
  - split; [reflexivity|]. exists []. rewrite app_nil_r. repeat split; auto.
  - apply andb_true_iff in H as [Ha H]. apply negb_true_iff in Ha.
    destruct (handle_step_added env a w Ha)
      as (Hdb1 & added1 & Hh1 & Hn1 & Hl1 & Hs1).
    destruct (IH (snd (handle env a w)) H)
      as (Hdb2 & added2 & Hh2 & Hn2 & Hl2 & Hs2).
    split; [rewrite Hdb2; exact Hdb1|].
    exists (added1 ++ added2).
    rewrite Hh2, Hh1, <- app_assoc, filter_app, !length_app, forallb_app,
      Hs1, Hs2, Hn1, Hn2.
    repeat split; auto; destruct (is_send a); simpl in *; lia.
Qed.

Lemma interact_without_connect_witness :
  db (session
        (interact sample_env [Send sample_question; ToggleTheme; Send ""]
           connected_world))
  = db (session connected_world) /\
  exists added,
    chat_history
      (session
         (interact sample_env [Send sample_question; ToggleTheme; Send ""]
            connected_world))
    = chat_history (session connected_world) ++ added /\
    List.length (filter is_human added)
    = List.length
        (filter is_send [Send sample_question; ToggleTheme; Send ""]) /\
    List.length added
    <= 2 * List.length
             (filter is_send [Send sample_question; ToggleTheme; Send ""]) /\
    forallb sent_turn added = true.
Proof.
  apply (@interact_without_connect sample_env
           [Send sample_question; ToggleTheme; Send ""] connected_world).
  reflexivity.
Defined.

Lemma handle_step_turns (env : Env) (a : action) (w : world) (m : message) :
  In m (chat_history (session (snd (handle env a w)))) ->
  In m (chat_history (session w)) \/ sent_turn m = true.
Proof.
  destruct a as [user password host port database | user_query |]; simpl.
  - destruct (on_connect_step env user password host port database w)
      as (_ & [(handle & _ & ->) | (_ & ->)]); [intros [] | auto].
  - destruct (on_send_step env user_query w)
      as (_ & _ & [-> | (answer & Hone & ->)]);
      intros Hin; apply in_app_or in Hin as [Hin | Hin]; auto; right.
    + destruct Hin as [<- | []]. reflexivity.
    + destruct Hin as [<- | [<- | []]]; [reflexivity | exact Hone].
  - auto.
Qed.

(** X18. Over any sequence of actions, Connects included, every entry
    of the history is an entry the session started with, a human turn,
    or an assistant turn of one sentence: exactly one period, at its
    end. *)
Theorem interact_turns (env : Env) (actions : list action) (w : world)
  (m : message) :
  In m (chat_history (session (interact env actions w))) ->
  In m (chat_history (session w)) \/ sent_turn m = true.
Proof.
  revert w. induction actions as [|a actions IH]; intros w H; simpl in *.
  - left. exact H.
  - destruct (IH _ H) as [Hin | Hs]; [|right; exact Hs].
    apply (handle_step_turns env a w m Hin).
Qed.

Lemma interact_turns_witness :
  In (AIMessage "The average engagement score is 3.")
    (chat_history (session connected_world)) \/
  sent_turn (AIMessage "The average engagement score is 3.") = true.
Proof.
  apply (@interact_turns sample_env
           [Connect "root" "secret" "localhost" "3306" "employee_db";
            Send sample_question]
           connected_world).
  vm_compute. right. left. reflexivity.
Defined.

Lemma toggle_theme_step (w : world) :
  db (session (snd (toggle_theme w))) = db (session w) /\
  (theme (session (snd (toggle_theme w))) = "light"%string \/
   theme (session (snd (toggle_theme w))) = "dark"%string).
Proof.
  unfold toggle_theme, with_session. simpl. split; [reflexivity|].
  destruct (String.eqb (theme (session w)) "light"); auto.
Qed.

Lemma handle_step_connection (env : Env) (a : action) (w : world) :
  (db (session w) <> None -> db (session (snd (handle env a w))) <> None) /\
  (theme (session w) = "light"%string \/ theme (session w) = "dark"%string ->
   theme (session (snd (handle env a w))) = "light"%string \/
   theme (session (snd (handle env a w))) = "dark"%string).
Proof.
  destruct a as [user password host port database | user_query |];
    cbn [handle].
  - destruct (on_connect_step env user password host port database w)
      as (-> & [(handle & -> & _) | (-> & _)]); split; auto; discriminate.
  - destruct (on_send_step env user_query w) as (-> & -> & _). split; auto.
  - destruct (toggle_theme_step w) as (-> & Ht). split; auto.
Qed.

(** X19. A session that holds a database handle holds one after any
    sequence of actions: a failed Connect leaves the old handle in
    place, and nothing else replaces or removes it.  A theme that is
    light or dark stays light or dark. *)
Theorem interact_connection_kept (env : Env) (actions : list action)
  (w : world) :
  (db (session w) <> None -> db (session (interact env actions w)) <> None) /\
  (theme (session w) = "light"%string \/ theme (session w) = "dark"%string ->
   theme (session (interact env actions w)) = "light"%string \/
   theme (session (interact env actions w)) = "dark"%string).
Proof.
  revert w. induction actions as [|a actions IH]; intros w; simpl.
  - split; auto.
  - destruct (handle_step_connection env a w) as [Hd Ht].
    destruct (IH (snd (handle env a w))) as [Hd' Ht']. split; auto.
Qed.

(** X20. After a Connect that failed, a Send goes to the database the
    session was connected to before: its first call asks that database
    for its schema. *)
Theorem on_send_after_failed_connect (env : Env)
  (user password host port database user_query : string) (w : world)
  (d : SQLDatabase) (e : exception) :
  db (session w) = Some d ->
  from_uri env (trace w) (db_uri user password host port database) = Raised e ->
  exists r rest,
    emitted (on_send env user_query)
      (snd (on_connect env user password host port database w))
    = EvTableInfo d r :: rest.
Proof.
  intros Hdb Huri.
  assert (Hdb' :
            db (session (snd (on_connect env user password host port database w)))
            = Some d).
  { unfold on_connect, bind. rewrite init_database_run. cbv zeta.
    rewrite Huri. simpl. exact Hdb. }
  rewrite (on_send_emitted env user_query _ d Hdb').
  match goal with
  | |- context [emitted (invoke_chain env user_query d ?h) ?w'] =>
      destruct (invoke_chain_emitted env user_query d h w') as [_ Hrun];
      destruct (chain_run_first _ _ _ _ _ _ Hrun) as (r0 & rest & ->)
  end.
  exists r0, rest. reflexivity.
Qed.

Lemma on_send_after_failed_connect_witness :
  exists r rest,
    emitted (on_send offline_env sample_question)
      (snd (on_connect offline_env "root" "wrong" "localhost" "3306"
              "employee_db" connected_world))
    = EvTableInfo (Handle 1) r :: rest.
Proof.
  apply (@on_send_after_failed_connect offline_env "root" "wrong" "localhost"
           "3306" "employee_db" sample_question connected_world (Handle 1)
           OperationalError).
  - reflexivity.
  - reflexivity.
Defined.

(** ** The top of the script *)

(** X21. The two guarded initialisations leave a session with a history
    and a theme and never touch the database handle.  A key that is
    already there is kept, an empty history included, so running them
    again changes nothing and the second history guard (line 282) never
    fires.  On a first load they produce the greeting and the light
    theme. *)
Theorem script_setup (s : raw_session_state) :
  (exists h t,
     complete (init_theme (init_chat_history s))
     = Some {| chat_history := h; db := raw_db s; theme := t |}) /\
  (forall h,
     raw_chat_history s = Some h ->
     raw_chat_history (init_theme (init_chat_history s)) = Some h) /\
  (forall t,
     raw_theme s = Some t ->
     raw_theme (init_theme (init_chat_history s)) = Some t) /\
  init_theme (init_chat_history (init_theme (init_chat_history s)))
  = init_theme (init_chat_history s) /\
  init_chat_history_empty (init_theme (init_chat_history s))
  = init_theme (init_chat_history s) /\
  (raw_chat_history s = None -> raw_theme s = None -> raw_db s = None ->
   complete (init_theme (init_chat_history s)) = Some initial_session).
Proof.
  destruct s as [[h|] d [t|]];
    unfold init_theme, init_chat_history, init_chat_history_empty, complete;
    simpl; repeat split; eauto; try discriminate; try congruence.
  intros _ _ ->. reflexivity.
Qed.

(** X22. The stylesheet formats without error for every session: each
    of its thirteen fields is given a colour and each doubled brace
    becomes a single one, seven rule blocks in all.  There are two
    sheets, which differ: the dark one for the theme ["dark"], the
    light one for every other theme. *)
Theorem theme_styles_renders (s : session_state) :
  (exists css,
     theme_styles s = Ok css /\
     count "{" css = 7 /\ count "}" css = 7) /\
  (theme s = "dark"%string -> theme_styles s = theme_styles_for true) /\
  (theme s <> "dark"%string -> theme_styles s = theme_styles_for false) /\
  theme_styles_for true <> theme_styles_for false.
Proof.
  unfold theme_styles.
  destruct (String.eqb (theme s) "dark") eqn:E.
  - apply String.eqb_eq in E.
    split; [eexists; split; [vm_compute; reflexivity|];
            split; vm_compute; reflexivity|].
    split; [reflexivity|]. split; [congruence|].
    intros H. vm_compute in H. discriminate H.
  - apply String.eqb_neq in E.
    split; [eexists; split; [vm_compute; reflexivity|];
            split; vm_compute; reflexivity|].
    split; [congruence|]. split; [reflexivity|].
    intros H. vm_compute in H. discriminate H.
Qed.

(** ** The history in the answer prompt *)

Lemma join_contains (sep x : string) (l : list string) :
  In x l -> exists before after, join sep l = (before ++ x ++ after)%string.
Proof.
  induction l as [|y l IH]; intros Hin; [contradiction|].
  destruct l as [|z l].
  - destruct Hin as [-> | []]. exists EmptyString, EmptyString.
    simpl. rewrite append_empty_r. reflexivity.
  - rewrite join_cons by discriminate.
    destruct Hin as [-> | Hin].
    + exists EmptyString, (sep ++ join sep (z :: l))%string. reflexivity.
    + destruct (IH Hin) as (a & b & ->).
      exists (y ++ sep ++ a)%string, b.
      rewrite !string_app_assoc. reflexivity.
Qed.

(** X23. [get_response] puts the whole history it was given into the
    answer prompt, with no window and no summary: in a run where the
    database describes itself and answers the model's query, the second
    prompt sent to the model contains the library's [repr] of every
    turn of the history. *)
Theorem answer_prompt_holds_every_turn (env : Env) (user_query : string)
  (d : SQLDatabase) (history : list message) (w : world)
  (schema query response : string) (m : message) :
  (forall tr, get_table_info env tr d = Ok schema) ->
  llm env (trace w ++ [EvTableInfo d (Ok schema)]) (sql_prompt user_query)
  = Ok query ->
  (forall tr, run env tr d query = Ok response) ->
  In m history ->
  exists prompt before after,
    llm_prompts (emitted (get_response env user_query d history) w)
    = [sql_prompt user_query; prompt] /\
    prompt = (before ++ repr_message env m ++ after)%string.
Proof.
  intros Hs Hq Hr Hin.
  rewrite get_response_emitted.
  rewrite (invoke_chain_answered env user_query d history w schema query
             response Hs Hq Hr).
  destruct (join_contains ", " (repr_message env m)
              (map (repr_message env) history)
              (in_map (repr_message env) history m Hin)) as (a & b & Hj).
  exists (answer_prompt (repr_message env) schema history query user_query
            response),
    (answer_head ++ schema ++ answer_after_schema ++ "[" ++ a)%string,
    (b ++ "]" ++ answer_after_history ++ query ++ answer_after_query
     ++ user_query ++ answer_after_question ++ response ++ answer_tail)%string.
  split; [reflexivity|].
  unfold answer_prompt, str_value. rewrite Hj.
  rewrite !string_app_assoc. reflexivity.
Qed.

Lemma answer_prompt_holds_every_turn_witness :
  exists prompt before after,
    llm_prompts
      (emitted
         (get_response sample_env sample_question (Handle 1)
            [AIMessage "Hello."; HumanMessage "How many?"; AIMessage "42."])
         connected_world)
    = [sql_prompt sample_question; prompt] /\
    prompt
    = (before ++ repr_message sample_env (HumanMessage "How many?")
       ++ after)%string.
Proof.
  apply (@answer_prompt_holds_every_turn sample_env sample_question (Handle 1)
           [AIMessage "Hello."; HumanMessage "How many?"; AIMessage "42."]
           connected_world
           "CREATE TABLE employee_engagement_survey_data (...)"
           sample_query "[(3.27,)]" (HumanMessage "How many?")).
  - intros tr. reflexivity.
  - reflexivity.
  - intros tr. reflexivity.
  - simpl. right. left. reflexivity.
Defined.
